(** * prom: PROfile Memory

    A shallow embedding of [prom/__init__.py]: the snapshot object
    [PromDumpFile] (load, write, gather, report), the signal trigger
    [PromDump] (dump, _handler) and the command line entry [main].

    Python values are an untyped universe [pyval]; a method is a
    computation in a state-and-exception monad over the pair made of the
    object's fields and the world (files, streams, log, collector). *)

From Stdlib Require Import ZArith String Ascii List Lia.
From Stdlib.Strings Require Import Byte.
From stdpp Require Import base option list strings gmap pretty.
Import ListNotations.

Local Open Scope string_scope.
Local Open Scope Z_scope.
Set Warnings "-register-all".

(** ** Python values *)

(** The values the program stores, pickles and prints: [None], integers,
    text, lists, tuples and dictionaries (a dictionary keeps its items in
    insertion order). *)
Inductive pyval : Type :=
| VNone
| VInt (z : Z)
| VStr (s : string)
| VList (xs : list pyval)
| VTuple (xs : list pyval)
| VDict (items : list (pyval * pyval)).

(** Induction over values that reaches inside the containers. *)
Section pyval_induction.
Variable P : pyval -> Prop.
Hypothesis HNone : P VNone.
Hypothesis HInt : forall z, P (VInt z).
Hypothesis HStr : forall s, P (VStr s).
Hypothesis HList : forall xs, Forall P xs -> P (VList xs).
Hypothesis HTuple : forall xs, Forall P xs -> P (VTuple xs).
Hypothesis HDict :
  forall items, Forall (fun kv => P (fst kv) /\ P (snd kv)) items -> P (VDict items).

Fixpoint pyval_nested_ind (v : pyval) : P v :=
  let fix all (xs : list pyval) : Forall P xs :=
    match xs with
    | [] => List.Forall_nil P
    | x :: xs' => @List.Forall_cons _ P x xs' (pyval_nested_ind x) (all xs')
    end in
  let fix all_items (kvs : list (pyval * pyval))
      : Forall (fun kv => P (fst kv) /\ P (snd kv)) kvs :=
    match kvs with
    | [] => List.Forall_nil _
    | (k, v) :: kvs' =>
        @List.Forall_cons _ _ (k, v) kvs'
          (conj (pyval_nested_ind k) (pyval_nested_ind v))
          (all_items kvs')
    end in
  match v with
  | VNone => HNone
  | VInt z => HInt z
  | VStr s => HStr s
  | VList xs => HList xs (all xs)
  | VTuple xs => HTuple xs (all xs)
  | VDict kvs => HDict kvs (all_items kvs)
  end.
End pyval_induction.

(** [x is None] *)
Definition is_None (v : pyval) : bool :=
  match v with VNone => true | _ => false end.

Definition type_name (v : pyval) : string :=
  match v with
  | VNone => "NoneType"
  | VInt _ => "int"
  | VStr _ => "str"
  | VList _ => "list"
  | VTuple _ => "tuple"
  | VDict _ => "dict"
  end.

(** ** Exceptions and outcomes *)

Inductive exn : Type :=
| AssertionError (msg : string)
| AttributeError (msg : string)
| TypeError (msg : string)
| ValueError (msg : string)
| KeyError (msg : string)
| RuntimeError (msg : string)
| FileNotFoundError (filename : string)
| IsADirectoryError (filename : string)
| PermissionError (filename : string)
| UnpicklingError
| SchemaError (msg : string)
| KeyboardInterrupt
| SystemExit (msg : string)
| DocoptExit (msg : string).

(** [isinstance(e, Exception)]: [KeyboardInterrupt] and [SystemExit] (of
    which [DocoptExit] is a subclass) derive from [BaseException] only. *)
Definition is_Exception (e : exn) : bool :=
  match e with
  | KeyboardInterrupt | SystemExit _ | DocoptExit _ => false
  | _ => true
  end.

(** [isinstance(e, AttributeError)] *)
Definition is_AttributeError (e : exn) : bool :=
  match e with AttributeError _ => true | _ => false end.

(** [isinstance(e, SchemaError)] *)
Definition is_SchemaError (e : exn) : bool :=
  match e with SchemaError _ => true | _ => false end.

(** [e.args[0]] *)
Definition exn_message (e : exn) : string :=
  match e with
  | AssertionError m | AttributeError m | TypeError m | ValueError m
  | KeyError m | RuntimeError m | FileNotFoundError m | IsADirectoryError m
  | PermissionError m | SchemaError m | SystemExit m | DocoptExit m => m
  | UnpicklingError | KeyboardInterrupt => ""
  end.

Inductive outcome (A : Type) : Type :=
| Ok (a : A)
| Raise (e : exn).
Arguments Ok {A} a.
Arguments Raise {A} e.

(** ** The state-and-exception monad *)

(** A statement runs from a state to an outcome and a state: the state
    reached when an exception is raised is kept, as the assignments made
    before a [raise] stay made in Python. *)
Definition M (S A : Type) : Type := S -> outcome A * S.

Definition ret {S A} (a : A) : M S A := fun s => (Ok a, s).

Definition bind {S A B} (m : M S A) (k : A -> M S B) : M S B :=
  fun s =>
    match m s with
    | (Ok a, s') => k a s'
    | (Raise e, s') => (Raise e, s')
    end.

Definition raise {S A} (e : exn) : M S A := fun s => (Raise e, s).

Definition gets {S A} (f : S -> A) : M S A := fun s => (Ok (f s), s).

Definition modify {S} (f : S -> S) : M S unit := fun s => (Ok tt, f s).

(** [try: m  except cls as e: h e] *)
Definition try_except {S A} (m : M S A) (cls : exn -> bool) (h : exn -> M S A)
  : M S A :=
  fun s =>
    match m s with
    | (Ok a, s') => (Ok a, s')
    | (Raise e, s') => if cls e then h e s' else (Raise e, s')
    end.

(** An outcome computed without touching the state. *)
Definition lift_outcome {S A} (o : outcome A) : M S A := fun s => (o, s).

(** [assert cond, msg] (the interpreter run without [-O]). *)
Definition assert_ {S} (cond : bool) (msg : string) : M S unit :=
  if cond then ret tt else raise (AssertionError msg).

Declare Scope py_scope.
Delimit Scope py_scope with py.
Notation "'let*' x ':=' m 'in' k" := (bind m (fun x => k))
  (at level 10, x name, m at level 100, k at level 200) : py_scope.
Notation "m '>>' k" := (bind m (fun _ => k))
  (at level 90, right associativity) : py_scope.
Local Open Scope py_scope.

(** [for x in xs: body x] *)
Fixpoint for_each {S A} (xs : list A) (body : A -> M S unit) : M S unit :=
  match xs with
  | [] => ret tt
  | x :: xs' => body x >> for_each xs' body
  end.

(** [enumerate(xs, start)] *)
Fixpoint enumerate_from {A} (start : nat) (xs : list A) : list (nat * A) :=
  match xs with
  | [] => []
  | x :: xs' => (start, x) :: enumerate_from (S start) xs'
  end.

(** [enumerate(xs)] *)
Definition enumerate {A} (xs : list A) : list (nat * A) := enumerate_from 0 xs.

(** ** Builtins on values *)

(** What iterating a value yields: the elements of a list or tuple, the
    keys of a dictionary, the characters of a text. *)
Definition py_iter (v : pyval) : outcome (list pyval) :=
  match v with
  | VList xs | VTuple xs => Ok xs
  | VDict items => Ok (map fst items)
  | VStr s => Ok (map (fun c => VStr (String c EmptyString)) (list_ascii_of_string s))
  | VNone | VInt _ =>
      Raise (TypeError ("'" +:+ type_name v +:+ "' object is not iterable"))
  end.

(** [x1, ..., xn = v]: the value is iterated to the end before any target
    is assigned. *)
Definition unpack (n : nat) (v : pyval) : outcome (list pyval) :=
  match py_iter v with
  | Raise _ =>
      Raise (TypeError ("cannot unpack non-iterable " +:+ type_name v +:+ " object"))
  | Ok xs =>
      if decide (length xs = n) then Ok xs
      else if decide (length xs < n)%nat then
        Raise (ValueError ("not enough values to unpack (expected " +:+ pretty n
                           +:+ ", got " +:+ pretty (length xs) +:+ ")"))
      else
        Raise (ValueError ("too many values to unpack (expected " +:+ pretty n +:+ ")"))
  end.

(** [d.items()] *)
Definition py_items (v : pyval) : outcome (list (pyval * pyval)) :=
  match v with
  | VDict items => Ok items
  | _ => Raise (AttributeError
                  ("'" +:+ type_name v +:+ "' object has no attribute 'items'"))
  end.

(** [d[k] = v] for an integer key: the value of a key already present is
    replaced where it stands, a new key goes last. *)
Fixpoint dict_setitem (k : Z) (v : pyval) (items : list (pyval * pyval))
  : list (pyval * pyval) :=
  match items with
  | [] => [(VInt k, v)]
  | (VInt k', v') :: rest =>
      if decide (k' = k) then (VInt k, v) :: rest
      else (VInt k', v') :: dict_setitem k v rest
  | kv :: rest => kv :: dict_setitem k v rest
  end.

(** The services the program calls and this repository does not define:
    the pickle codec, the rendering of a container as text and docopt's
    parsing of an argument vector against a usage text. *)
Class Builtins : Type := {
  pickle_dumps : pyval -> list byte;
  pickle_loads : list byte -> option pyval;
  py_repr : pyval -> string;
  docopt : string -> list string -> outcome (list (string * pyval))
}.

(** The codec gives back what it was given. *)
Definition pickle_exact `{Builtins} : Prop :=
  forall v, pickle_loads (pickle_dumps v) = Some v.

(** [str(v)] *)
Definition py_str `{Builtins} (v : pyval) : string :=
  match v with
  | VNone => "None"
  | VInt z => pretty z
  | VStr s => s
  | _ => py_repr v
  end.

(** The conversion [%i] of the [%] operator. *)
Definition format_i (v : pyval) : outcome string :=
  match v with
  | VInt z => Ok (pretty z)
  | _ => Raise (TypeError ("%i format: a real number is required, not "
                           +:+ type_name v))
  end.

(** ** The world *)

Inductive level : Type := DEBUG | INFO | ERROR.

(** What the module's [LOGGER] was handed. *)
Inductive LogRecord : Type :=
| LogMessage (lvl : level) (msg : string)
| LogException (e : exn).

(** An object tracked by the collector, as the introspection calls of
    [gather] see it. *)
Record HeapObj : Type := {
  o_id : Z;                    (* id(obj) *)
  o_str : outcome string;      (* str(obj) *)
  o_sizeof : Z;                (* sys.getsizeof(obj) *)
  o_referents : list Z;        (* [id(o) for o in gc.get_referents(obj)] *)
  o_referrers : list Z         (* [id(o) for o in gc.get_referrers(obj)] *)
}.

Record Runtime : Type := {
  gc_stats : option pyval;     (* gc.get_stats(); None: the function does not exist *)
  gc_objects : list HeapObj;   (* gc.get_objects() *)
  clock : string;              (* the text of time.time() *)
  pid : Z;                     (* os.getpid() *)
  argv0 : string               (* sys.argv[0] *)
}.

(** Why [open] fails on a path: no such file or directory (the empty
    path, a directory on the way that is missing), the path is a
    directory, access is denied. *)
Inductive errno : Type := ENOENT | EISDIR | EACCES.

(** The [OSError] of an error number. *)
Definition os_error (code : errno) (p : string) : exn :=
  match code with
  | ENOENT => FileNotFoundError p
  | EISDIR => IsADirectoryError p
  | EACCES => PermissionError p
  end.

(** The files are a flat store from path to content; the directories are
    not modelled but through [unopenable]: the paths [open(p, 'wb')]
    fails on, and why. *)
Record World : Type := {
  files : gmap string (list byte);
  unopenable : gmap string errno;
  stdout : string;             (* what sys.stdout received *)
  streams : gmap nat string;   (* what the other open text streams received *)
  log : list LogRecord;
  collections : nat;           (* how many times gc.collect() ran *)
  runtime : Runtime
}.

Definition set_files (fs : gmap string (list byte)) (w : World) : World :=
  {| files := fs; unopenable := unopenable w; stdout := stdout w;
     streams := streams w; log := log w;
     collections := collections w; runtime := runtime w |}.

Definition set_stdout (s : string) (w : World) : World :=
  {| files := files w; unopenable := unopenable w; stdout := s;
     streams := streams w; log := log w;
     collections := collections w; runtime := runtime w |}.

Definition set_streams (ss : gmap nat string) (w : World) : World :=
  {| files := files w; unopenable := unopenable w; stdout := stdout w;
     streams := ss; log := log w;
     collections := collections w; runtime := runtime w |}.

Definition add_log (r : LogRecord) (w : World) : World :=
  {| files := files w; unopenable := unopenable w; stdout := stdout w;
     streams := streams w;
     log := log w ++ [r];
     collections := collections w; runtime := runtime w |}.

Definition count_collection (w : World) : World :=
  {| files := files w; unopenable := unopenable w; stdout := stdout w;
     streams := streams w; log := log w;
     collections := S (collections w); runtime := runtime w |}.

(** A text stream: [sys.stdout] or another open one. *)
Inductive stream : Type := sys_stdout | text_stream (n : nat).

Definition written (f : stream) (w : World) : string :=
  match f with
  | sys_stdout => stdout w
  | text_stream n => default "" (streams w !! n)
  end.

(** [f.write(s)] *)
Definition stream_write (f : stream) (s : string) (w : World) : World :=
  match f with
  | sys_stdout => set_stdout (stdout w +:+ s) w
  | text_stream n => set_streams (<[n := default "" (streams w !! n) +:+ s]> (streams w)) w
  end.

(** [os.path.exists] *)
Definition pathexists (p : string) (w : World) : bool :=
  bool_decide (is_Some (files w !! p)).

(** [os.path.join] of two components. *)
Definition pathjoin (a b : string) : string :=
  if String.prefix "/" b then b
  else if decide (a = "") then b
  else if String.eqb (substring (String.length a - 1) 1 a) "/" then a +:+ b
  else a +:+ "/" +:+ b.

(** [LOGGER.debug], [LOGGER.info], [LOGGER.exception] *)
Definition LOGGER (r : LogRecord) : M World unit := modify (add_log r).

(** [open(p, 'rb')] followed by reading the file to its end. *)
Definition open_rb (p : string) : M World (list byte) :=
  fun w =>
    match files w !! p with
    | Some content => (Ok content, w)
    | None => (Raise (FileNotFoundError p), w)
    end.

(** [open(p, 'wb')]: the file is created, or emptied when it exists,
    unless the path cannot be opened. *)
Definition open_wb (p : string) : M World unit :=
  fun w =>
    match unopenable w !! p with
    | Some code => (Raise (os_error code p), w)
    | None => (Ok tt, set_files (<[p := []]> (files w)) w)
    end.

(** [f.write(bs)] on the file opened at [p]. *)
Definition file_write (p : string) (bs : list byte) : M World unit :=
  modify (fun w => set_files (<[p := (default [] (files w !! p) ++ bs)%list]> (files w)) w).

(** [gc.collect()] *)
Definition gc_collect : M World unit := modify count_collection.

(** [gc.get_stats()]: the attribute is missing on an interpreter older
    than 3.4. *)
Definition gc_get_stats : M World pyval :=
  fun w =>
    match gc_stats (runtime w) with
    | Some st => (Ok st, w)
    | None => (Raise (AttributeError "module 'gc' has no attribute 'get_stats'"), w)
    end.

(** [gc.get_objects()] *)
Definition gc_get_objects : M World (list HeapObj) :=
  gets (fun w => gc_objects (runtime w)).

(** ** Module level functions *)

Definition get_process_info : M World (list (string * pyval)) :=
  gets (fun w => [("ts", VStr (clock (runtime w)));
                  ("pid", VInt (pid (runtime w)));
                  ("name", VStr (argv0 (runtime w)))]).

Definition obj_dump (obj : HeapObj) : outcome string := o_str obj.

(** The tuple the loop of [gather] builds for [obj], whose text is
    [desc]: text, [sys.getsizeof(obj)], the identities of the referents,
    the identities of the referrers. *)
Definition node_of (obj : HeapObj) (desc : string) : pyval :=
  VTuple [VStr desc; VInt (o_sizeof obj);
          VList (map VInt (o_referents obj)); VList (map VInt (o_referrers obj))].

(** A template of the [%] operator applied to a mapping, read into its
    literal pieces and its [%(key)c] fields. *)
Inductive piece : Type :=
| Lit (s : string)
| Field (key : string) (conv : ascii).

(** ['%(name)s-%(pid)i-%(ts)s.prom'] *)
Definition FILE_NAME_TEMPLATE : list piece :=
  [Field "name" "s"; Lit "-"; Field "pid" "i"; Lit "-"; Field "ts" "s"; Lit ".prom"].

Definition dict_get (key : string) (d : list (string * pyval)) : outcome pyval :=
  match List.find (fun kv => String.eqb (fst kv) key) d with
  | Some kv => Ok (snd kv)
  | None => Raise (KeyError key)
  end.

Definition format_piece `{Builtins} (info : list (string * pyval)) (p : piece)
  : outcome string :=
  match p with
  | Lit s => Ok s
  | Field key conv =>
      match dict_get key info with
      | Raise e => Raise e
      | Ok v =>
          if Ascii.eqb conv "s" then Ok (py_str v)
          else if Ascii.eqb conv "i" then format_i v
          else Raise (ValueError "unsupported format character")
      end
  end.

(** [template % info] *)
Fixpoint format_template `{Builtins} (template : list piece)
    (info : list (string * pyval)) : outcome string :=
  match template with
  | [] => Ok ""
  | p :: rest =>
      match format_piece info p with
      | Raise e => Raise e
      | Ok s =>
          match format_template rest info with
          | Raise e => Raise e
          | Ok s' => Ok (s +:+ s')
          end
      end
  end.

(** ** class PromDumpFile *)

Module PromDumpFile.

Record t : Type := { path : string; stats : pyval; graph : pyval }.

Definition set_stats (v : pyval) (self : t) : t :=
  {| path := path self; stats := v; graph := graph self |}.

Definition set_graph (v : pyval) (self : t) : t :=
  {| path := path self; stats := stats self; graph := v |}.

(** A method runs on the object and the world. *)
Definition st : Type := t * World.

Definition in_world {A} (m : M World A) : M st A :=
  fun s => let '(o, w') := m (snd s) in (o, (fst s, w')).

Definition on_self (f : t -> t) : M st unit :=
  modify (fun s => (f (fst s), snd s)).

Definition self_ {A} (f : t -> A) : M st A := gets (fun s => f (fst s)).

Definition __init__ (path : string) : t :=
  {| path := path; stats := VNone; graph := VNone |}.

Section methods.
Context `{Builtins}.

Definition load : M st unit :=
  let* p := self_ path in
  in_world (LOGGER (LogMessage DEBUG ("Loading memory graph from: " +:+ p))) >>
  let* content := in_world (open_rb p) in
  let* v := match pickle_loads content with
            | Some v => ret v
            | None => raise UnpicklingError
            end in
  let* pair := lift_outcome (unpack 2 v) in
  on_self (set_stats (nth 0 pair VNone)) >>
  on_self (set_graph (nth 1 pair VNone)).

(** [self.graph[k] = node] *)
Definition graph_setitem (k : Z) (node : pyval) : M st unit :=
  let* g := self_ graph in
  match g with
  | VDict items => on_self (set_graph (VDict (dict_setitem k node items)))
  | _ => raise (TypeError ("'" +:+ type_name g
                           +:+ "' object does not support item assignment"))
  end.

(** One turn of the loop of [gather]. *)
Definition gather_turn (obj : HeapObj) : M st unit :=
  let* description := lift_outcome (obj_dump obj) in
  let node := node_of obj description in
  graph_setitem (o_id obj) node.

Definition gather : M st unit :=
  in_world (LOGGER (LogMessage DEBUG "Forcing GC colection")) >>
  in_world gc_collect >>
  try_except
    (let* s := in_world gc_get_stats in on_self (set_stats s))
    is_AttributeError
    (fun _ => ret tt) >>
  in_world (LOGGER (LogMessage DEBUG "Gathering memory graph")) >>
  let* objs := in_world gc_get_objects in
  on_self (set_graph (VDict [])) >>
  for_each objs gather_turn.

Definition write : M st unit :=
  let* p := self_ path in
  let* present := in_world (gets (pathexists p)) in
  assert_ (negb present) ("cannot overwrite " +:+ p) >>
  let* g := self_ graph in
  (if is_None g then gather else ret tt) >>
  in_world (LOGGER (LogMessage DEBUG ("Saving memory graph to: " +:+ p))) >>
  in_world (open_wb p) >>
  let* s := self_ stats in
  let* g := self_ graph in
  in_world (file_write p (pickle_dumps (VTuple [s; g]))).

(** The block under [if self.stats is not None:] of [report]. *)
Definition report_stats (f : stream) : M st unit :=
  let* s := self_ stats in
  if negb (is_None s) then
    in_world (modify (stream_write f "Collection statitstics
")) >>
    let* records := lift_outcome (py_iter s) in
    for_each (enumerate records) (fun '(i, r) =>
      in_world (modify (stream_write f (pretty i +:+ ": " +:+ py_str r +:+ "
")))) >>
    in_world (modify (stream_write f "
"))
  else ret tt.

(** One turn of the loop of [report] over the items of the graph. *)
Definition report_row (f : stream) (row : nat * (pyval * pyval)) : M st unit :=
  let '(i, (id, node)) := row in
  (if (i mod 100 =? 0)%nat then
     in_world (modify (stream_write f ("ID" +:+ String "009" "Object
")))
   else ret tt) >>
  let* fields := lift_outcome (unpack 3 node) in
  let obj := nth 0 fields VNone in
  let* id_text := lift_outcome (format_i id) in
  in_world (modify (stream_write f (id_text +:+ String "009" (py_str obj +:+ "
")))).

(** The statements of [report] from [f.write('Object graph\n')] on. *)
Definition report_graph (f : stream) : M st unit :=
  in_world (modify (stream_write f "Object graph
")) >>
  let* g := self_ graph in
  let* items := lift_outcome (py_items g) in
  for_each (enumerate items) (report_row f).

(** [report(f)]; [None] stands for the default of the parameter. *)
Definition report (f : option stream) : M st unit :=
  let* g := self_ graph in
  assert_ (negb (is_None g)) "no memory graph" >>
  let f := default sys_stdout f in
  report_stats f >>
  report_graph f.

End methods.
End PromDumpFile.

(** ** class PromDump *)

Module PromDump.

Record t : Type := { path : string; name_template : list piece }.

Section methods.
Context `{Builtins}.

Definition dump (self : t) : M World PromDumpFile.t :=
  let* info := get_process_info in
  let* name := lift_outcome (format_template (name_template self) info) in
  let file_name := pathjoin (path self) name in
  let d := PromDumpFile.__init__ file_name in
  fun w =>
    match PromDumpFile.write (d, w) with
    | (Ok _, (d', w')) => (Ok d', w')
    | (Raise e, (_, w')) => (Raise e, w')
    end.

Definition _handler (self : t) (sig : Z) : M World unit :=
  LOGGER (LogMessage INFO ("Received signal: " +:+ pretty sig +:+ ", dumping")) >>
  try_except
    (dump self >> ret tt)
    is_Exception
    (fun e => LOGGER (LogException e)).

End methods.
End PromDump.

(** ** The command line *)

(** [textwrap.dedent(main.__doc__)] *)
Definition main_doc : string :=
"
PROM - PROfile Memory.

Usage:
    python -m prom <path>

Options:
    <path>   The path to the prom dump file.
".

(** [Schema({'<path>': pathexists}).validate(opt)]: every key of [opt]
    must be ['<path>'], that key must be there, and [pathexists] must hold
    of its value; each failure is a [SchemaError] (whose text is
    abridged here). *)
Definition schema_validate (opt : list (string * pyval))
  : M World (list (string * pyval)) :=
  fun w =>
    match List.find (fun kv => negb (String.eqb (fst kv) "<path>")) opt with
    | Some kv => (Raise (SchemaError ("Wrong key '" +:+ fst kv +:+ "'")), w)
    | None =>
        match dict_get "<path>" opt with
        | Raise _ => (Raise (SchemaError "Missing key: '<path>'"), w)
        | Ok (VStr p) =>
            if pathexists p w then (Ok opt, w)
            else (Raise (SchemaError ("pathexists('" +:+ p
                                      +:+ "') should evaluate to True")), w)
        | Ok v => (Raise (SchemaError ("pathexists(" +:+ type_name v
                                       +:+ ") raised TypeError")), w)
        end
    end.

(** What [docopt] prints when the arguments ask for help:
    [doc.strip('\n')]. *)
Definition main_help : string :=
"PROM - PROfile Memory.

Usage:
    python -m prom <path>

Options:
    <path>   The path to the prom dump file.
".

Section command_line.
Context `{Builtins}.

(** The call [docopt(doc, argv)]: when it leaves through [SystemExit],
    which it does for the help option, it has printed the usage text to
    standard output. *)
Definition call_docopt (argv : list string) : M World (list (string * pyval)) :=
  fun w =>
    match docopt main_doc argv with
    | Raise (SystemExit m) => (Raise (SystemExit m), stream_write sys_stdout main_help w)
    | o => (o, w)
    end.

Definition main (argv : list string) : M World unit :=
  let* opt := call_docopt argv in
  let* opt := try_except (schema_validate opt) is_SchemaError
                (fun e => raise (DocoptExit (exn_message e))) in
  let* p := lift_outcome (dict_get "<path>" opt) in
  match p with
  | VStr p =>
      let d := PromDumpFile.__init__ p in
      fun w => let '(o, s) := PromDumpFile.report None (d, w) in (o, snd s)
  | _ => raise (TypeError "path is not a text")  (* not reached once validated *)
  end.

End command_line.

(** The status the interpreter exits with when the program was [main]:
    zero when it returned or left through [sys.exit()] (here
    [SystemExit ""]), one when another exception (a [DocoptExit] with its
    text among them) reached the top. *)
Definition exit_status (o : outcome unit) : Z :=
  match o with
  | Ok _ => 0
  | Raise (SystemExit "") => 0
  | Raise _ => 1
  end.

(** ** The snapshot of the data model *)

(** One node: description, approximate size, referents, referrers. *)
Record GraphNode : Type := {
  description : string;
  approx_size : Z;
  referents : list Z;
  referrers : list Z
}.

(** Optional statistics (one record of named counters per generation)
    and the graph, from identity to node. *)
Record Snapshot : Type := {
  snap_stats : option (list (list (string * Z)));
  snap_graph : list (Z * GraphNode)
}.

Definition node_value (n : GraphNode) : pyval :=
  VTuple [VStr (description n); VInt (approx_size n);
          VList (map VInt (referents n)); VList (map VInt (referrers n))].

Definition stats_value (s : option (list (list (string * Z)))) : pyval :=
  match s with
  | None => VNone
  | Some gens =>
      VList (map (fun counters =>
                    VDict (map (fun kv => (VStr (fst kv), VInt (snd kv))) counters))
                 gens)
  end.

Definition graph_value (g : list (Z * GraphNode)) : pyval :=
  VDict (map (fun kn => (VInt (fst kn), node_value (snd kn))) g).

(** The object holding the snapshot [s] for the file at [p]. *)
Definition holding (p : string) (s : Snapshot) : PromDumpFile.t :=
  {| PromDumpFile.path := p;
     PromDumpFile.stats := stats_value (snap_stats s);
     PromDumpFile.graph := graph_value (snap_graph s) |}.

(** ** A reference implementation of the builtins *)

(** A codec in the manner of pickle: the bytes are the instructions of a
    stack machine, one byte each, that rebuild the value. Integers are
    built from zero by doubling, texts by appending one character,
    containers by appending to an empty one. *)
Module Reference.

Local Open Scope byte_scope.

Fixpoint pos_ops (p : positive) : list byte :=
  match p with
  | xH => ["D"]
  | xO p' => pos_ops p' ++ ["d"]
  | xI p' => pos_ops p' ++ ["D"]
  end%list.

Definition int_ops (z : Z) : list byte :=
  match z with
  | Z0 => ["z"]
  | Zpos p => "z" :: pos_ops p
  | Zneg p => "z" :: pos_ops p ++ ["-"]
  end%list.

Fixpoint chars_ops (s : string) : list byte :=
  match s with
  | EmptyString => []
  | String c s' => int_ops (Z.of_N (N_of_ascii c)) ++ "a" :: chars_ops s'
  end%list.

Fixpoint ops (v : pyval) : list byte :=
  match v with
  | VNone => ["N"]
  | VInt z => int_ops z
  | VStr s => "e" :: chars_ops s
  | VList xs => "l" :: flat_map (fun x => ops x ++ ["A"]) xs
  | VTuple xs => "t" :: flat_map (fun x => ops x ++ ["T"]) xs
  | VDict items => "{" :: flat_map (fun '(k, v) => ops k ++ ops v ++ ["S"]) items
  end%list.

Definition step (b : byte) (stack : list pyval) : option (list pyval) :=
  match b, stack with
  | "N", _ => Some (VNone :: stack)
  | "z", _ => Some (VInt 0 :: stack)
  | "d", VInt n :: rest => Some (VInt (2 * n) :: rest)
  | "D", VInt n :: rest => Some (VInt (2 * n + 1) :: rest)
  | "-", VInt n :: rest => Some (VInt (- n) :: rest)
  | "e", _ => Some (VStr "" :: stack)
  | "a", VInt n :: VStr s :: rest =>
      Some (VStr (s +:+ String (ascii_of_N (Z.to_N n)) "") :: rest)
  | "l", _ => Some (VList [] :: stack)
  | "A", v :: VList xs :: rest => Some (VList (xs ++ [v]) :: rest)
  | "t", _ => Some (VTuple [] :: stack)
  | "T", v :: VTuple xs :: rest => Some (VTuple (xs ++ [v]) :: rest)
  | "{", _ => Some (VDict [] :: stack)
  | "S", v :: k :: VDict items :: rest => Some (VDict (items ++ [(k, v)]) :: rest)
  | _, _ => None
  end%list.

Fixpoint run (bs : list byte) (stack : list pyval) : option (list pyval) :=
  match bs with
  | [] => Some stack
  | b :: bs' =>
      match step b stack with
      | Some stack' => run bs' stack'
      | None => None
      end
  end.

Definition loads (bs : list byte) : option pyval :=
  match run bs [] with
  | Some [v] => Some v
  | _ => None
  end.

Definition join (sep : string) (parts : list string) : string :=
  match parts with
  | [] => ""
  | p :: ps => fold_left (fun acc q => acc +:+ sep +:+ q) ps p
  end.

(** [repr], exact on texts free of quotes, backslashes and control
    characters. *)
Fixpoint repr (v : pyval) : string :=
  match v with
  | VNone => "None"
  | VInt z => pretty z
  | VStr s => "'" +:+ s +:+ "'"
  | VList xs => "[" +:+ join ", " (map repr xs) +:+ "]"
  | VTuple [x] => "(" +:+ repr x +:+ ",)"
  | VTuple xs => "(" +:+ join ", " (map repr xs) +:+ ")"
  | VDict items =>
      "{" +:+ join ", " (map (fun '(k, v) => repr k +:+ ": " +:+ repr v) items) +:+ "}"
  end%string.

(** A parser that takes the argument vector to be the path alone. *)
Definition parse (doc : string) (argv : list string)
  : outcome (list (string * pyval)) :=
  match argv with
  | [p] => Ok [("<path>"%string, VStr p)]
  | _ => Raise (DocoptExit doc)
  end.

#[export] Instance builtins : Builtins :=
  {| pickle_dumps := ops; pickle_loads := loads; py_repr := repr; docopt := parse |}.

End Reference.

(** ** Worlds and objects to run the program on *)

Module Sample.

Definition heap : list HeapObj :=
  [ {| o_id := 140; o_str := Ok "[]"; o_sizeof := 56;
       o_referents := []; o_referrers := [150] |};
    {| o_id := 150; o_str := Ok "{'a': []}"; o_sizeof := 232;
       o_referents := [140]; o_referrers := [] |} ].

Definition rt : Runtime :=
  {| gc_stats := Some (VList [VDict [(VStr "collections", VInt 3)]]);
     gc_objects := heap;
     clock := "1700000000.5"; pid := 4242; argv0 := "app.py" |}.

(** The same process on an interpreter without [gc.get_stats]. *)
Definition rt_old : Runtime :=
  {| gc_stats := None; gc_objects := heap;
     clock := "1700000000.5"; pid := 4242; argv0 := "app.py" |}.

(** A process one of whose objects is interrupted while it renders
    itself. *)
Definition rt_interrupted : Runtime :=
  {| gc_stats := None;
     gc_objects := [ {| o_id := 140; o_str := Raise KeyboardInterrupt; o_sizeof := 56;
                        o_referents := []; o_referrers := [] |} ];
     clock := "1700000000.5"; pid := 4242; argv0 := "app.py" |}.

Definition world_of (r : Runtime) : World :=
  {| files := ∅; unopenable := ∅; stdout := ""; streams := ∅; log := [];
     collections := 0; runtime := r |}.

Definition world : World := world_of rt.

Definition trigger : PromDump.t :=
  {| PromDump.path := "/tmp"; PromDump.name_template := FILE_NAME_TEMPLATE |}.

Definition dump_path : string := "/tmp/app.py-4242-1700000000.5.prom".

Definition snapshot : Snapshot :=
  {| snap_stats := Some [[("collections", 3)]; [("collections", 1)]];
     snap_graph := [(140, {| description := "[]"; approx_size := 56;
                             referents := []; referrers := [150] |});
                    (150, {| description := "{'a': []}"; approx_size := 232;
                             referents := [140]; referrers := [] |})] |}.

(** The world after the trigger has dumped once. *)
Definition dumped : World :=
  snd (PromDump.dump (H := Reference.builtins) trigger world).

End Sample.

(** ** What the methods are expected to produce *)

(** The text of an object that renders. *)
Definition rendering (obj : HeapObj) : string :=
  match o_str obj with Ok s => s | Raise _ => "" end.

Definition renders (obj : HeapObj) : Prop := exists s, o_str obj = Ok s.

(** The item of the graph for a tracked object. *)
Definition entry (obj : HeapObj) : pyval * pyval :=
  (VInt (o_id obj), node_of obj (rendering obj)).

(** The world once [gather] has logged and collected. *)
Definition collected (w : World) : World :=
  add_log (LogMessage DEBUG "Gathering memory graph")
    (count_collection (add_log (LogMessage DEBUG "Forcing GC colection") w)).

(** The world once [write] has stored [bs] at [p]. *)
Definition stored (p : string) (bs : list byte) (w : World) : World :=
  set_files (<[p := bs]> (files (add_log (LogMessage DEBUG ("Saving memory graph to: " +:+ p)) w)))
    (add_log (LogMessage DEBUG ("Saving memory graph to: " +:+ p)) w).

(** The lines of the statistics block, one per record, numbered from
    [start]. *)
Fixpoint stats_lines `{Builtins} (start : nat) (records : list pyval) : string :=
  match records with
  | [] => ""
  | r :: rest =>
      (pretty start +:+ ": " +:+ py_str r +:+ "
") +:+ stats_lines (S start) rest
  end.

(** The statistics block: heading, lines, blank line. *)
Definition stats_block `{Builtins} (records : list pyval) : string :=
  "Collection statitstics
" +:+ stats_lines 0 records +:+ "
".

(** What [report] writes before the graph section for the statistics
    [s]. *)
Definition stats_text `{Builtins} (s : pyval) : string :=
  match s with
  | VList records => stats_block records
  | _ => ""
  end.

(** The heading of the graph section and the heading of its table. *)
Definition graph_heading : string := "Object graph
".

Definition table_heading : string := "ID" +:+ String "009" "Object
".

(** ** Signals *)

(** What a signal is bound to: the default action, nothing, the handler
    of a trigger (the bound method [self._handler]) or another callable
    of the program. *)
Inductive Disposition : Type :=
| SIG_DFL
| SIG_IGN
| Handler (trigger : PromDump.t)
| Callable (n : nat).

(** The process around the world: its table of signal dispositions (a
    signal that is not in the table has the default action), the signals
    [signal.signal] refuses and the exception it refuses them with,
    [tempfile.gettempdir()] and the number of [signal.SIGUSR1]. *)
Record Process : Type := {
  world : World;
  dispositions : gmap Z Disposition;
  refused : gmap Z exn;
  tempdir : string;
  SIGUSR1 : Z
}.

Definition set_world (w : World) (p : Process) : Process :=
  {| world := w; dispositions := dispositions p; refused := refused p;
     tempdir := tempdir p; SIGUSR1 := SIGUSR1 p |}.

Definition set_dispositions (ds : gmap Z Disposition) (p : Process) : Process :=
  {| world := world p; dispositions := ds; refused := refused p;
     tempdir := tempdir p; SIGUSR1 := SIGUSR1 p |}.

(** [signal.getsignal(sig)] *)
Definition getsignal (sig : Z) (p : Process) : Disposition :=
  default SIG_DFL (dispositions p !! sig).

(** [signal.signal(sig, handler)]: the old disposition is returned. *)
Definition signal_signal (sig : Z) (handler : Disposition) : M Process Disposition :=
  fun p =>
    match refused p !! sig with
    | Some e => (Raise e, p)
    | None => (Ok (getsignal sig p),
               set_dispositions (<[sig := handler]> (dispositions p)) p)
    end.

Definition in_process {A} (m : M World A) : M Process A :=
  fun p => let '(o, w') := m (world p) in (o, set_world w' p).

(** [PromDump(path=PATH_DEFAULT, name_template=FILE_NAME_TEMPLATE)] *)
Definition PromDump_new (path : option string) (name_template : option (list piece))
  : M Process PromDump.t :=
  gets (fun p => {| PromDump.path := default (tempdir p) path;
                    PromDump.name_template := default FILE_NAME_TEMPLATE name_template |}).

(** The method [PromDump.install(sig=signal.SIGUSR1)]. *)
Definition PromDump_install (self : PromDump.t) (sig : option Z) : M Process unit :=
  let* sig := gets (fun p => default (SIGUSR1 p) sig) in
  in_process (LOGGER (LogMessage INFO
                        ("Installing signal handler for signal: " +:+ pretty sig))) >>
  signal_signal sig (Handler self) >>
  ret tt.

(** [install(sig=SIG_DEFAULT, **kwargs)] *)
Definition install (sig : option Z) (path : option string)
    (name_template : option (list piece)) : M Process unit :=
  let* sig := gets (fun p => default (SIGUSR1 p) sig) in
  let* dump := PromDump_new path name_template in
  PromDump_install dump (Some sig).

(** [uninstall(sig=SIG_DEFAULT)] *)
Definition uninstall (sig : option Z) : M Process unit :=
  let* sig := gets (fun p => default (SIGUSR1 p) sig) in
  signal_signal sig SIG_DFL >>
  ret tt.

(** The arrival of [sig] where this module decides what happens: the
    handler of a trigger runs on the world, an ignored signal does
    nothing. *)
Definition deliver `{Builtins} (sig : Z) (p : Process) : option (outcome unit * Process) :=
  match getsignal sig p with
  | Handler t => Some (in_process (PromDump._handler t sig) p)
  | SIG_IGN => Some (Ok tt, p)
  | SIG_DFL | Callable _ => None
  end.

(** ** More of what the methods produce *)

(** [k in d] for an integer key. *)
Fixpoint has_key (k : Z) (items : list (pyval * pyval)) : bool :=
  match items with
  | [] => false
  | (VInt k', _) :: rest => if decide (k' = k) then true else has_key k rest
  | _ :: rest => has_key k rest
  end.

(** The statistics [gather] leaves in an object that held [held]. *)
Definition gathered_stats (w : World) (held : pyval) : pyval :=
  match gc_stats (runtime w) with Some st => st | None => held end.

(** The name the default template gives the dump of the process. *)
Definition default_name (w : World) : string :=
  argv0 (runtime w) +:+ "-" +:+ pretty (pid (runtime w)) +:+ "-"
    +:+ clock (runtime w) +:+ ".prom".

(** An item [report] can write: an integer identity and a node of three
    fields. *)
Definition is_row (item : pyval * pyval) : Prop :=
  exists z a b c, item = (VInt z, VTuple [a; b; c]).

(** The line of an item. *)
Definition row_line `{Builtins} (item : pyval * pyval) : string :=
  match item with
  | (VInt z, VTuple (obj :: _)) => pretty z +:+ String "009" (py_str obj +:+ "
")
  | _ => ""
  end.

(** The lines of the items, one after the other. *)
Fixpoint row_lines `{Builtins} (items : list (pyval * pyval)) : string :=
  match items with
  | [] => ""
  | item :: rest => row_line item +:+ row_lines rest
  end.

(** The rows of the table from the row numbered [start] on, the table
    heading before each hundredth. *)
Fixpoint rows_from `{Builtins} (start : nat) (items : list (pyval * pyval)) : string :=
  match items with
  | [] => ""
  | item :: rest =>
      (if (start mod 100 =? 0)%nat then table_heading else "")
      +:+ row_line item +:+ rows_from (S start) rest
  end.

(** [w'] differs from [w] by text appended to the stream [f] alone. *)
Definition only_wrote (f : stream) (w w' : World) : Prop :=
  files w' = files w /\ log w' = log w /\ collections w' = collections w
  /\ runtime w' = runtime w
  /\ (forall g, g <> f -> written g w' = written g w)
  /\ exists text, written f w' = written f w +:+ text.

(** [get_process_info()] as a value. *)
Definition info_of (w : World) : list (string * pyval) :=
  [("ts", VStr (clock (runtime w)));
   ("pid", VInt (pid (runtime w)));
   ("name", VStr (argv0 (runtime w)))].

(** The process of the sample, with a callable of its own on signal 12
    and no signal numbered 99. *)
Definition sample_process : Process :=
  {| world := Sample.world;
     dispositions := {[ 12 := Callable 0 ]};
     refused := {[ 99 := ValueError "signal number out of range" ]};
     tempdir := "/tmp";
     SIGUSR1 := 10 |}.

(** More to run the program on: a graph of nodes of three fields, a
    process with an object that does not render, files holding a given
    value. *)
Module More.

Definition rows (start count : nat) : list (pyval * pyval) :=
  map (fun i => (VInt (Z.of_nat i), VTuple [VStr "obj"; VList []; VList []]))
      (seq start count).

Definition with_rows (items : list (pyval * pyval)) : PromDumpFile.t :=
  {| PromDumpFile.path := "rows.prom"; PromDumpFile.stats := VNone;
     PromDumpFile.graph := VDict items |}.

Definition first : HeapObj :=
  {| o_id := 140; o_str := Ok "[]"; o_sizeof := 56;
     o_referents := []; o_referrers := [] |}.

Definition bad : HeapObj :=
  {| o_id := 160; o_str := Raise (RuntimeError "no text"); o_sizeof := 48;
     o_referents := []; o_referrers := [] |}.

Definition last : HeapObj :=
  {| o_id := 150; o_str := Ok "{}"; o_sizeof := 64;
     o_referents := []; o_referrers := [] |}.

Definition failing : World :=
  Sample.world_of
    {| gc_stats := Some (VList []); gc_objects := [first; bad; last];
       clock := "1700000000.5"; pid := 4242; argv0 := "app.py" |}.

(** The sample world with one file, the pickle of [v]. *)
Definition world_with (p : string) (v : pyval) : World :=
  set_files {[ p := Reference.ops v ]} Sample.world.

(** The sample process started as [bin/app.py], with no directory
    [/tmp/bin] for its dump. *)
Definition unreachable : World :=
  {| files := ∅;
     unopenable := {[ "/tmp/bin/app.py-4242-1700000000.5.prom" := ENOENT ]};
     stdout := ""; streams := ∅; log := []; collections := 0;
     runtime := {| gc_stats := None; gc_objects := Sample.heap;
                   clock := "1700000000.5"; pid := 4242; argv0 := "bin/app.py" |} |}.

Definition odd_trigger : PromDump.t :=
  {| PromDump.path := "/tmp"; PromDump.name_template := [Lit "dump-"; Field "host" "s"] |}.

End More.

(** * Properties *)

(** ** The monad and the streams *)

Lemma bind_ok {S A B} (m : M S A) (k : A -> M S B) s a s' :
  m s = (Ok a, s') -> bind m k s = k a s'.
Proof. intros Hm. unfold bind. now rewrite Hm. Qed.

Lemma bind_raise {S A B} (m : M S A) (k : A -> M S B) s e s' :
  m s = (Raise e, s') -> bind m k s = (Raise e, s').
Proof. intros Hm. unfold bind. now rewrite Hm. Qed.

(** A loop keeps what each turn of its body keeps, whether it ends or
    raises. *)
Lemma for_each_invariant {S A} (I : S -> Prop) (xs : list A) (body : A -> M S unit) :
  (forall x s, I s -> I (snd (body x s))) ->
  forall s, I s -> I (snd (for_each xs body s)).
Proof.
  intros Hbody. induction xs as [|x xs IH]; intros s Hs; simpl; [exact Hs|].
  unfold bind. specialize (Hbody x s Hs).
  destruct (body x s) as [[[]|e] s1]; simpl in *; auto.
Qed.

Lemma string_app_assoc (a b c : string) : (a +:+ b) +:+ c = a +:+ (b +:+ c).
Proof.
  induction a as [|ch a IH]; [reflexivity|].
  change (String ch ((a +:+ b) +:+ c) = String ch (a +:+ (b +:+ c))).
  now rewrite IH.
Qed.

(** Two writes to a stream are one write of the two texts. *)
Lemma stream_write_write f a b w :
  stream_write f b (stream_write f a w) = stream_write f (a +:+ b) w.
Proof.
  destruct f as [|n]; unfold stream_write, set_stdout, set_streams; simpl.
  - now rewrite string_app_assoc.
  - rewrite lookup_insert_eq, insert_insert_eq. simpl.
    now rewrite string_app_assoc.
Qed.

Lemma written_stream_write f s w :
  written f (stream_write f s w) = written f w +:+ s.
Proof.
  destruct f as [|n]; unfold written, stream_write; simpl; [reflexivity|].
  now rewrite lookup_insert_eq.
Qed.

Section properties.
Context `{Builtins}.

Import PromDumpFile.

(** ** report before any graph *)

(** C5. [report] on an object whose graph is [None] raises the
    assertion error 'no memory graph' at once: the object and the whole
    world, every stream in it, are as they were. *)
Theorem report_without_graph_fails (f : option stream) (self : t) (w : World) :
  graph self = VNone ->
  report f (self, w) = (Raise (AssertionError "no memory graph"), (self, w))
  /\ written (default sys_stdout f) (snd (snd (report f (self, w))))
     = written (default sys_stdout f) w.
Proof.
  intros Hg.
  assert (Hrun : report f (self, w)
                 = (Raise (AssertionError "no memory graph"), (self, w))).
  { unfold report, bind, self_, gets. simpl. now rewrite Hg. }
  split; [exact Hrun|]. now rewrite Hrun.
Qed.

(** ** write never overwrites *)

Lemma write_existing (self : t) (w : World) :
  is_Some (files w !! path self) ->
  write (self, w)
  = (Raise (AssertionError ("cannot overwrite " +:+ path self)), (self, w)).
Proof.
  intros Hsome. unfold write, bind, self_, in_world, gets. simpl.
  unfold pathexists. now rewrite bool_decide_eq_true_2.
Qed.

(** ** What gather touches *)

Ltac run :=
  unfold bind, ret, raise, gets, modify, self_, on_self, in_world,
    lift_outcome, assert_, try_except, LOGGER, gc_collect, gc_get_stats,
    gc_get_objects, open_rb, open_wb, file_write; simpl.

(** One turn of the loop of [gather] changes the graph only. *)
Lemma gather_turn_keeps (obj : HeapObj) (s : st) :
  let s' := snd (gather_turn obj s) in
  path (fst s') = path (fst s) /\ stats (fst s') = stats (fst s) /\ snd s' = snd s.
Proof.
  destruct s as [self w]. unfold gather_turn, obj_dump, graph_setitem. run.
  destruct (o_str obj) as [desc|e]; simpl; [|auto].
  destruct (graph self); simpl; auto.
Qed.

(** [gather] leaves the path, the files and the streams alone, and
    collects once, whether it ends or raises. *)
Lemma gather_keeps (self : t) (w : World) :
  let s' := snd (gather (self, w)) in
  path (fst s') = path self /\ snd s' = collected w.
Proof.
  unfold gather. run.
  destruct (gc_stats (runtime w)) as [st0|]; simpl.
  all: apply (for_each_invariant
                (fun s => path (fst s) = path self /\ snd s = collected w));
    [|auto].
  all: intros obj s [Hp Hw];
    pose proof (gather_turn_keeps obj s) as (Hp' & _ & Hw');
    split; [exact (eq_trans Hp' Hp)|exact (eq_trans Hw' Hw)].
Qed.

(** [write] to a path that holds no file: gather if no graph is held,
    then open the file, if it can be opened, and store the pickled
    pair. *)
Lemma write_fresh (self : t) (w : World) :
  files w !! path self = None ->
  write (self, w)
  = match (if is_None (graph self) then gather (self, w) else (Ok tt, (self, w))) with
    | (Ok _, (self1, w1)) =>
        match unopenable w !! path self with
        | Some code =>
            (Raise (os_error code (path self)),
             (self1, add_log (LogMessage DEBUG
                                ("Saving memory graph to: " +:+ path self)) w1))
        | None =>
            (Ok tt, (self1, stored (path self)
                              (pickle_dumps (VTuple [stats self1; graph self1])) w1))
        end
    | (Raise e, s1) => (Raise e, s1)
    end.
Proof.
  intros Hfree. unfold write. run. unfold pathexists.
  rewrite bool_decide_eq_false_2 by (rewrite Hfree; apply is_Some_None). simpl.
  destruct (is_None (graph self)); simpl.
  - pose proof (gather_keeps self w) as [_ Hworld].
    destruct (gather (self, w)) as [[[]|e] [self1 w1]]; simpl; [|reflexivity].
    simpl in Hworld. subst w1. simpl.
    destruct (unopenable w !! path self); simpl; [reflexivity|].
    unfold stored, set_files. simpl.
    now rewrite lookup_insert_eq, insert_insert_eq.
  - destruct (unopenable w !! path self); simpl; [reflexivity|].
    unfold stored, set_files. simpl.
    now rewrite lookup_insert_eq, insert_insert_eq.
Qed.

(** C4. [write] to a path that holds a file raises the assertion error
    'cannot overwrite <path>' and changes nothing, the file least of
    all; so after a first write that succeeded, a second one to the same
    path, from any object, fails and the file keeps what the first one
    stored. *)
Theorem write_refuses_existing_path (self : t) (w : World) :
  (forall content, files w !! path self = Some content ->
     write (self, w)
     = (Raise (AssertionError ("cannot overwrite " +:+ path self)), (self, w)))
  /\ (forall self1 w1 (again : t),
        write (self, w) = (Ok tt, (self1, w1)) -> path again = path self ->
        exists content,
          files w1 !! path self = Some content
          /\ write (again, w1)
             = (Raise (AssertionError ("cannot overwrite " +:+ path self)), (again, w1))
          /\ files (snd (snd (write (again, w1)))) !! path self = Some content).
Proof.
  split.
  - intros content Hc. apply write_existing. rewrite Hc. eauto.
  - intros self1 w1 again Hw Hp.
    destruct (files w !! path self) as [c|] eqn:Hfile.
    { rewrite write_existing in Hw by (rewrite Hfile; eauto). discriminate. }
    rewrite (write_fresh _ _ Hfile) in Hw.
    destruct (if is_None (graph self) then gather (self, w) else (Ok tt, (self, w)))
      as [[[]|e] [self2 w2]]; [|discriminate].
    destruct (unopenable w !! path self); [discriminate|].
    injection Hw as <- <-.
    exists (pickle_dumps (VTuple [stats self2; graph self2])).
    assert (Hstored : files (stored (path self)
                               (pickle_dumps (VTuple [stats self2; graph self2])) w2)
                      !! path self
                      = Some (pickle_dumps (VTuple [stats self2; graph self2]))).
    { unfold stored, set_files. simpl. apply lookup_insert_eq. }
    assert (Hfail : write (again, stored (path self)
                             (pickle_dumps (VTuple [stats self2; graph self2])) w2)
                    = (Raise (AssertionError ("cannot overwrite " +:+ path self)),
                       (again, stored (path self)
                                 (pickle_dumps (VTuple [stats self2; graph self2])) w2))).
    { rewrite <- Hp. apply write_existing. rewrite Hp, Hstored. eauto. }
    split; [exact Hstored|]. split; [exact Hfail|]. now rewrite Hfail.
Qed.

(** ** load *)


(** What [load] does with a file that holds the pickle of a pair. *)
Lemma load_pickled_pair (d : t) (w : World) (s g : pyval) :
  pickle_exact ->
  files w !! path d = Some (pickle_dumps (VTuple [s; g])) ->
  load (d, w)
  = (Ok tt, ({| path := path d; stats := s; graph := g |},
             add_log (LogMessage DEBUG ("Loading memory graph from: " +:+ path d)) w)).
Proof.
  intros Hexact Hfile. unfold load. run. rewrite Hfile. simpl.
  rewrite Hexact. reflexivity.
Qed.

(** ** write followed by load *)

(** C3. Whatever snapshot an object holds (statistics or none, and a
    graph from identities to four-field nodes): writing it to a path
    that holds no file and can be opened returns and leaves the object as
    it was; and whenever writing it returns, loading that path
    afterwards, from any object made for it, gives an object holding that
    very snapshot. The pickle codec is taken to give back what it was
    given. *)
Theorem write_then_load_roundtrip (s : Snapshot) (p : string) (w : World) :
  pickle_exact ->
  (files w !! p = None -> unopenable w !! p = None ->
     exists w1, write (holding p s, w) = (Ok tt, (holding p s, w1)))
  /\ (forall d1 w1,
        write (holding p s, w) = (Ok tt, (d1, w1)) ->
        d1 = holding p s
        /\ forall d, path d = p ->
             exists w2, load (d, w1) = (Ok tt, (holding p s, w2))).
Proof.
  intros Hexact. split.
  - intros Hfree Hopen.
    pose proof (write_fresh (holding p s) w Hfree) as Hw. simpl in Hw.
    rewrite Hopen in Hw. eexists. exact Hw.
  - intros d1 w1 Hwrite.
    destruct (files w !! p) as [c|] eqn:Hfile.
    { rewrite write_existing in Hwrite by (simpl; rewrite Hfile; eauto). discriminate. }
    pose proof (write_fresh (holding p s) w Hfile) as Hw. simpl in Hw.
    rewrite Hw in Hwrite.
    destruct (unopenable w !! p); [discriminate|]. injection Hwrite as <- <-.
    split; [reflexivity|].
    intros d Hd. eexists.
    rewrite (load_pickled_pair d _ (stats_value (snap_stats s))
               (graph_value (snap_graph s)) Hexact).
    + rewrite Hd. reflexivity.
    + rewrite Hd. unfold stored, set_files. simpl. apply lookup_insert_eq.
Qed.

(** ** write and gather *)

(** C7. On a path that holds no file: when a graph is held, [write]
    collects nothing and leaves the object as it is, and it stores the
    pickle of the pair of the held statistics and graph, or, when the
    path cannot be opened, raises the error of [open] and creates no
    file; when no graph is held it runs [gather], once, and raises what
    [gather] raised, creating no file, or goes on to store the pickle of
    the pair [gather] left in the object, or to raise the error of
    [open]. *)
Theorem write_gathers_iff_no_graph (self : t) (w : World) :
  files w !! path self = None ->
  (graph self <> VNone ->
     collections (snd (snd (write (self, w)))) = collections w
     /\ fst (snd (write (self, w))) = self
     /\ match unopenable w !! path self with
        | None =>
            fst (write (self, w)) = Ok tt
            /\ files (snd (snd (write (self, w)))) !! path self
               = Some (pickle_dumps (VTuple [stats self; graph self]))
        | Some code =>
            fst (write (self, w)) = Raise (os_error code (path self))
            /\ files (snd (snd (write (self, w)))) = files w
        end)
  /\ (graph self = VNone ->
      forall o self1 w1, gather (self, w) = (o, (self1, w1)) ->
      collections w1 = S (collections w)
      /\ collections (snd (snd (write (self, w)))) = S (collections w)
      /\ fst (snd (write (self, w))) = self1
      /\ match o with
         | Raise e =>
             write (self, w) = (Raise e, (self1, w1))
             /\ files w1 !! path self = None
         | Ok _ =>
             match unopenable w !! path self with
             | None =>
                 fst (write (self, w)) = Ok tt
                 /\ files (snd (snd (write (self, w)))) !! path self
                    = Some (pickle_dumps (VTuple [stats self1; graph self1]))
             | Some code =>
                 fst (write (self, w)) = Raise (os_error code (path self))
                 /\ files (snd (snd (write (self, w)))) = files w
             end
         end).
Proof.
  intros Hfree. pose proof (write_fresh self w Hfree) as Hw. split.
  - intros Hg.
    assert (Hheld : is_None (graph self) = false)
      by (destruct (graph self); [contradiction|reflexivity..]).
    rewrite Hheld in Hw. rewrite Hw.
    destruct (unopenable w !! path self); simpl.
    + repeat split; reflexivity.
    + repeat split; try reflexivity. apply lookup_insert_eq.
  - intros Hg o self1 w1 Hgather. rewrite Hg in Hw. simpl in Hw.
    pose proof (gather_keeps self w) as [_ Hworld].
    rewrite Hgather in Hw, Hworld. simpl in Hworld. subst w1.
    split; [reflexivity|]. rewrite Hw.
    destruct o as [[]|e].
    + destruct (unopenable w !! path self); simpl.
      * repeat split; reflexivity.
      * repeat split; try reflexivity. apply lookup_insert_eq.
    + simpl. repeat split; try reflexivity. exact Hfree.
Qed.

(** ** gather without statistics *)

(** Setting a key that is not there appends the item. *)
Lemma dict_setitem_fresh (k : Z) (v : pyval) (objs : list HeapObj) :
  k ∉ map o_id objs ->
  dict_setitem k v (map entry objs) = (map entry objs ++ [(VInt k, v)])%list.
Proof.
  induction objs as [|obj objs IH]; intros Hk; simpl; [reflexivity|].
  apply not_elem_of_cons in Hk as [Hne Hk].
  destruct (decide (o_id obj = k)) as [Heq|_]; [congruence|].
  now rewrite IH.
Qed.

(** A turn of the loop for an object that renders sets its item. *)
Lemma gather_turn_renders (obj : HeapObj) (self : t) (w : World) items desc :
  graph self = VDict items ->
  o_str obj = Ok desc ->
  gather_turn obj (self, w)
  = (Ok tt, (set_graph (VDict (dict_setitem (o_id obj) (node_of obj desc) items)) self, w)).
Proof.
  intros Hg Hdesc. unfold gather_turn, obj_dump, graph_setitem. run.
  now rewrite Hdesc, Hg.
Qed.

(** The loop of [gather] over objects that render and have identities
    of their own adds their items in turn. *)
Lemma gather_loop (todo done : list HeapObj) (self : t) (w : World) :
  graph self = VDict (map entry done) ->
  Forall renders todo ->
  NoDup (map o_id (done ++ todo)) ->
  for_each todo gather_turn (self, w)
  = (Ok tt, (set_graph (VDict (map entry (done ++ todo))) self, w)).
Proof.
  revert done self. induction todo as [|obj todo IH]; intros done self Hg Hr Hnd.
  - simpl. rewrite app_nil_r, <- Hg. now destruct self.
  - apply Forall_cons in Hr as [[desc Hdesc] Hr].
    assert (Hfresh : o_id obj ∉ map o_id done).
    { rewrite map_app in Hnd. apply NoDup_app in Hnd as (_ & Hdisj & _).
      intros Hin. apply (Hdisj _ Hin). simpl. apply elem_of_cons. now left. }
    simpl. rewrite (bind_ok _ _ _ _ _ (gather_turn_renders obj self w _ desc Hg Hdesc)).
    replace (node_of obj desc) with (node_of obj (rendering obj))
      by (unfold rendering; now rewrite Hdesc).
    rewrite (dict_setitem_fresh _ _ _ Hfresh).
    change [(VInt (o_id obj), node_of obj (rendering obj))] with (map entry [obj]).
    rewrite <- map_app.
    rewrite (IH (done ++ [obj])%list); [|reflexivity|exact Hr|].
    + now rewrite <- app_assoc.
    + now rewrite <- app_assoc.
Qed.

(** Without [gc.get_stats] the statistics field is not assigned: it
    keeps what it held. *)
Lemma gather_without_stats_keeps (self : t) (w : World) :
  gc_stats (runtime w) = None ->
  Forall renders (gc_objects (runtime w)) ->
  NoDup (map o_id (gc_objects (runtime w))) ->
  gather (self, w)
  = (Ok tt, ({| path := path self; stats := stats self;
                graph := VDict (map entry (gc_objects (runtime w))) |},
             collected w)).
Proof.
  intros Hnostats Hr Hnd. unfold gather. run. rewrite Hnostats. simpl.
  pose proof (gather_loop (gc_objects (runtime w)) [] (set_graph (VDict []) self)
                (collected w) eq_refl Hr Hnd) as Hloop.
  unfold collected in Hloop. simpl in Hloop. now rewrite Hloop.
Qed.

(** Whatever the loop of [gather] raises, the rendering of a tracked
    object raised. *)
Lemma gather_loop_raises (objs : list HeapObj) (self : t) (w : World) items e :
  graph self = VDict items ->
  fst (for_each objs gather_turn (self, w)) = Raise e ->
  exists obj, obj ∈ objs /\ o_str obj = Raise e.
Proof.
  revert self items. induction objs as [|obj objs IH]; intros self items Hg;
    [discriminate|].
  simpl. destruct (o_str obj) as [desc|e0] eqn:Hstr.
  - rewrite (bind_ok _ _ _ _ _ (gather_turn_renders obj self w items desc Hg Hstr)).
    intros Hraise.
    destruct (IH (set_graph (VDict (dict_setitem (o_id obj) (node_of obj desc) items)) self)
                _ eq_refl Hraise) as (obj' & Hin & Hobj').
    exists obj'. split; [now apply elem_of_cons; right|exact Hobj'].
  - unfold bind, gather_turn, lift_outcome, obj_dump. rewrite Hstr. simpl.
    intros [= <-]. exists obj. split; [now apply elem_of_cons; left|exact Hstr].
Qed.

(** C9, amended. When [gc.get_stats] does not exist, [gather] does not
    raise on that account (whatever it raises, the rendering of a tracked
    object raised) and assigns no statistics: whether it ends or raises,
    the object holds the statistics it held before, [None] on an object
    that held none, as [__init__] leaves it. When the objects render as
    text (and have identities of their own) it ends without raising and
    the graph has one item for every tracked object, in the order of
    [gc.get_objects()], under its identity: the tuple of its text, size,
    referents and referrers. *)
Theorem gather_without_stats (self : t) (w : World) :
  gc_stats (runtime w) = None ->
  (forall e, fst (gather (self, w)) = Raise e ->
     exists obj, obj ∈ gc_objects (runtime w) /\ o_str obj = Raise e)
  /\ stats (fst (snd (gather (self, w)))) = stats self
  /\ (Forall renders (gc_objects (runtime w)) ->
      NoDup (map o_id (gc_objects (runtime w))) ->
      gather (self, w)
      = (Ok tt, ({| path := path self; stats := stats self;
                    graph := VDict (map entry (gc_objects (runtime w))) |},
                 collected w))).
Proof.
  intros Hnostats. split; [|split].
  - intros e. unfold gather. run. rewrite Hnostats. simpl.
    apply (gather_loop_raises _ _ _ []). reflexivity.
  - unfold gather. run. rewrite Hnostats. simpl.
    apply (for_each_invariant (fun s => stats (fst s) = stats self)); [|reflexivity].
    intros obj s Hs. destruct (gather_turn_keeps obj s) as (_ & Hstats & _).
    exact (eq_trans Hstats Hs).
  - intros Hr Hnd. exact (gather_without_stats_keeps self w Hnostats Hr Hnd).
Qed.

(** ** report *)

Lemma string_app_nil_r (a : string) : a +:+ "" = a.
Proof.
  induction a as [|ch a IH]; [reflexivity|].
  change (String ch (a +:+ "") = String ch a). now rewrite IH.
Qed.

(** The loop over the statistics writes their lines. *)
Lemma report_stats_loop (f : stream) (records : list pyval) (start : nat)
    (acc : string) (self : t) (w : World) :
  for_each (enumerate_from start records)
    (fun '(i, r) =>
       in_world (modify (stream_write f (pretty i +:+ ": " +:+ py_str r +:+ "
")))) (self, stream_write f acc w)
  = (Ok tt, (self, stream_write f (acc +:+ stats_lines start records) w)).
Proof.
  revert start acc. induction records as [|r records IH]; intros start acc.
  - simpl. now rewrite string_app_nil_r.
  - simpl. unfold bind at 1, in_world at 1, modify at 1. simpl.
    rewrite stream_write_write, IH. now rewrite string_app_assoc.
Qed.

Lemma report_stats_present (f : stream) (self : t) (w : World) records :
  stats self = VList records ->
  report_stats f (self, w) = (Ok tt, (self, stream_write f (stats_block records) w)).
Proof.
  intros Hs. unfold report_stats. unfold bind at 1, self_, gets. simpl.
  rewrite Hs. simpl.
  unfold bind at 1, in_world at 1, modify at 1. simpl.
  unfold bind at 1, lift_outcome at 1. unfold bind at 1, enumerate.
  rewrite report_stats_loop. unfold in_world, modify. simpl.
  rewrite stream_write_write. unfold stats_block.
  now rewrite string_app_assoc.
Qed.

Lemma report_stats_absent (f : stream) (self : t) (w : World) :
  stats self = VNone -> report_stats f (self, w) = (Ok tt, (self, w)).
Proof.
  intros Hs. unfold report_stats, bind, self_, gets. simpl. now rewrite Hs.
Qed.

(** With a graph held, [report] is the statistics block and then the
    graph section. *)
Lemma report_with_graph (f : option stream) (self : t) (w : World) :
  graph self <> VNone ->
  report f (self, w)
  = bind (report_stats (default sys_stdout f))
      (fun _ => report_graph (default sys_stdout f)) (self, w).
Proof.
  intros Hg. unfold report. unfold bind at 1, self_, gets. simpl.
  destruct (graph self); [contradiction|reflexivity..].
Qed.

Lemma report_graph_eq (f : stream) (self : t) (w : World) :
  report_graph f (self, w)
  = match py_items (graph self) with
    | Ok items =>
        for_each (enumerate items) (report_row f)
          (self, stream_write f graph_heading w)
    | Raise e => (Raise e, (self, stream_write f graph_heading w))
    end.
Proof.
  unfold report_graph, bind, in_world, modify, self_, gets, lift_outcome.
  cbn [fst snd]. now destruct (py_items (graph self)).
Qed.

(** A row leaves the object alone and only appends to the stream. *)
Lemma report_row_appends (f : stream) (row : nat * (pyval * pyval)) (s : st) :
  exists text,
    fst (snd (report_row f row s)) = fst s
    /\ written f (snd (snd (report_row f row s))) = written f (snd s) +:+ text.
Proof.
  destruct row as [i [id node]], s as [self w].
  unfold report_row, bind, in_world, modify, ret, lift_outcome. cbn [fst snd].
  destruct (i mod 100 =? 0)%nat; cbn [fst snd];
    destruct (unpack 3 node) as [fields|e]; cbn [fst snd];
    try destruct (format_i id) as [id_text|e']; cbn [fst snd];
    rewrite ?written_stream_write, ?string_app_assoc;
    eexists; (split; [reflexivity|]); try reflexivity.
  all: now rewrite string_app_nil_r.
Qed.

(** The graph section opens with its heading and only ever appends to
    the stream. *)
Lemma report_graph_opens (f : stream) (self : t) (w : World) :
  exists rows,
    fst (snd (report_graph f (self, w))) = self
    /\ written f (snd (snd (report_graph f (self, w))))
       = written f w +:+ graph_heading +:+ rows.
Proof.
  rewrite report_graph_eq.
  destruct (py_items (graph self)) as [items|e].
  - apply (for_each_invariant
             (fun s => exists rows,
                  fst s = self
                  /\ written f (snd s) = written f w +:+ graph_heading +:+ rows)).
    + intros row s (rows & Hself & Hout).
      destruct (report_row_appends f row s) as (text & Hself' & Hout').
      exists (rows +:+ text). split; [exact (eq_trans Hself' Hself)|].
      cbv beta. etransitivity; [exact Hout'|].
      now rewrite Hout, !string_app_assoc.
    + exists "". cbn [fst snd]. split; [reflexivity|].
      now rewrite written_stream_write, string_app_nil_r.
  - exists "". cbn [fst snd]. split; [reflexivity|].
    now rewrite written_stream_write, string_app_nil_r.
Qed.

(** With a graph held: when the statistics are a list, [report]
    writes the heading 'Collection statitstics', one numbered line for
    each record in the order of the list, and a blank line, and then
    goes through the graph section from there; when the statistics are
    [None] it writes none of that and goes through the graph section at
    once. The graph section is the same run of statements in both cases:
    it leaves the object alone and writes 'Object graph' and then its
    rows after what the stream already held. *)
Theorem report_stats_section (f : option stream) (self : t) (w : World) :
  graph self <> VNone ->
  (forall records, stats self = VList records ->
     report f (self, w)
     = report_graph (default sys_stdout f)
         (self, stream_write (default sys_stdout f) (stats_block records) w))
  /\ (stats self = VNone ->
      report f (self, w) = report_graph (default sys_stdout f) (self, w))
  /\ (forall w0, exists rows,
        fst (snd (report_graph (default sys_stdout f) (self, w0))) = self
        /\ written (default sys_stdout f)
             (snd (snd (report_graph (default sys_stdout f) (self, w0))))
           = written (default sys_stdout f) w0 +:+ graph_heading +:+ rows).
Proof.
  intros Hg. split; [|split].
  - intros records Hs. rewrite (report_with_graph _ _ _ Hg).
    now rewrite (bind_ok _ _ _ _ _ (report_stats_present _ self w records Hs)).
  - intros Hs. rewrite (report_with_graph _ _ _ Hg).
    now rewrite (bind_ok _ _ _ _ _ (report_stats_absent _ self w Hs)).
  - intros w0. apply report_graph_opens.
Qed.

(** The first row of a graph whose nodes have four fields: the table
    heading is written, then the node does not unpack into three. *)
Lemma report_row_four_fields (f : stream) (self : t) (w : World) id a b c d :
  report_row f (0%nat, (id, VTuple [a; b; c; d])) (self, w)
  = (Raise (ValueError "too many values to unpack (expected 3)"),
     (self, stream_write f table_heading w)).
Proof. reflexivity. Qed.

Lemma report_first_node_four_fields (f : option stream) (self : t) (w : World)
    id a b c d rest :
  graph self = VDict ((id, VTuple [a; b; c; d]) :: rest) ->
  stats self = VNone \/ (exists records, stats self = VList records) ->
  report f (self, w)
  = (Raise (ValueError "too many values to unpack (expected 3)"),
     (self, stream_write (default sys_stdout f)
              (stats_text (stats self) +:+ graph_heading +:+ table_heading) w)).
Proof.
  intros Hg Hs.
  assert (Hheld : graph self <> VNone) by (rewrite Hg; discriminate).
  rewrite (report_with_graph _ _ _ Hheld).
  assert (Hrows : forall w0,
             report_graph (default sys_stdout f) (self, w0)
             = (Raise (ValueError "too many values to unpack (expected 3)"),
                (self, stream_write (default sys_stdout f)
                         (graph_heading +:+ table_heading) w0))).
  { intros w0. rewrite report_graph_eq, Hg. cbn [py_items enumerate enumerate_from for_each].
    rewrite (bind_raise _ _ _ _ _ (report_row_four_fields _ _ _ _ _ _ _ _)).
    now rewrite stream_write_write. }
  destruct Hs as [Hs|[records Hs]].
  - rewrite (bind_ok _ _ _ _ _ (report_stats_absent _ self w Hs)), Hrows.
    now rewrite Hs.
  - rewrite (bind_ok _ _ _ _ _ (report_stats_present _ self w records Hs)), Hrows.
    now rewrite stream_write_write, Hs.
Qed.

(** C2, as the code has it. [report] on an object that holds a snapshot
    with at least one node (each node the four fields [gather] stores)
    writes the statistics block if there is one, 'Object graph' and the
    table heading once, and then raises [ValueError]: the loop unpacks
    the node into three names. No line for any node is written. *)
Theorem report_fails_on_first_node (f : option stream) (p : string)
    (s : Snapshot) (w : World) :
  snap_graph s <> [] ->
  report f (holding p s, w)
  = (Raise (ValueError "too many values to unpack (expected 3)"),
     (holding p s,
      stream_write (default sys_stdout f)
        (stats_text (stats_value (snap_stats s)) +:+ graph_heading +:+ table_heading)
        w)).
Proof.
  intros Hne. destruct s as [st0 [|[k n] rest]]; [contradiction|].
  set (self := holding p {| snap_stats := st0; snap_graph := (k, n) :: rest |}).
  assert (Hs : stats self = VNone \/ (exists records, stats self = VList records))
    by (destruct st0 as [gens|]; [right; eexists|left]; reflexivity).
  exact (report_first_node_four_fields f self w (VInt k) (VStr (description n))
           (VInt (approx_size n)) (VList (map VInt (referents n)))
           (VList (map VInt (referrers n)))
           (map (fun kn => (VInt (fst kn), node_value (snd kn))) rest)
           eq_refl Hs).
Qed.

(** ** The signal handler *)

(** C8, amended. When the dump the handler runs raises an instance of
    [Exception], the handler hands it to [LOGGER.exception] and returns
    normally: nothing propagates to the interrupted program. *)
Theorem handler_swallows_Exception (self : PromDump.t) (sig : Z) (w w1 : World)
    (e : exn) :
  PromDump.dump self
    (add_log (LogMessage INFO ("Received signal: " +:+ pretty sig +:+ ", dumping")) w)
  = (Raise e, w1) ->
  is_Exception e = true ->
  PromDump._handler self sig w = (Ok tt, add_log (LogException e) w1).
Proof.
  intros Hdump Hcls. unfold PromDump._handler.
  unfold bind at 1, LOGGER at 1, modify at 1. unfold try_except.
  rewrite (bind_raise _ _ _ _ _ Hdump), Hcls. reflexivity.
Qed.

(** What is not an [Exception] goes through the handler. *)
Lemma handler_propagates_BaseException (self : PromDump.t) (sig : Z) (w w1 : World)
    (e : exn) :
  PromDump.dump self
    (add_log (LogMessage INFO ("Received signal: " +:+ pretty sig +:+ ", dumping")) w)
  = (Raise e, w1) ->
  is_Exception e = false ->
  PromDump._handler self sig w = (Raise e, w1).
Proof.
  intros Hdump Hcls. unfold PromDump._handler.
  unfold bind at 1, LOGGER at 1, modify at 1. unfold try_except.
  rewrite (bind_raise _ _ _ _ _ Hdump), Hcls. reflexivity.
Qed.

(** ** The command line *)

Lemma schema_validate_path (p : string) (w : World) :
  schema_validate [("<path>", VStr p)] w
  = if pathexists p w then (Ok [("<path>", VStr p)], w)
    else (Raise (SchemaError ("pathexists('" +:+ p +:+ "') should evaluate to True")), w).
Proof. reflexivity. Qed.

(** C1, as the code has it. When the arguments parse to a path that
    holds a file, whatever the file holds, [main] raises the assertion
    error 'no memory graph': it calls [report] on an object it never
    called [load] on. Nothing is written, no file is read, and the
    program exits with a status that is not zero. *)
Theorem main_reports_nothing (argv : list string) (p : string) (w : World) :
  docopt main_doc argv = Ok [("<path>", VStr p)] ->
  is_Some (files w !! p) ->
  main argv w = (Raise (AssertionError "no memory graph"), w)
  /\ exit_status (fst (main argv w)) = 1.
Proof.
  intros Hparse Hfile.
  assert (Hmain : main argv w = (Raise (AssertionError "no memory graph"), w)).
  { unfold main. unfold bind at 1, call_docopt. rewrite Hparse.
    unfold bind at 1, try_except. rewrite schema_validate_path.
    unfold pathexists. rewrite bool_decide_eq_true_2 by exact Hfile.
    reflexivity. }
  split; [exact Hmain|]. now rewrite Hmain.
Qed.

(** A path that holds no file is refused before anything is read: the
    program exits through [DocoptExit] and the world is as it was. *)
Lemma main_missing_path (argv : list string) (p : string) (w : World) :
  docopt main_doc argv = Ok [("<path>", VStr p)] ->
  files w !! p = None ->
  exists msg, main argv w = (Raise (DocoptExit msg), w).
Proof.
  intros Hparse Hfile. eexists.
  unfold main. unfold bind at 1, call_docopt. rewrite Hparse.
  unfold bind at 1, try_except. rewrite schema_validate_path.
  unfold pathexists.
  rewrite bool_decide_eq_false_2 by (rewrite Hfile; apply is_Some_None).
  reflexivity.
Qed.

(** Whatever the arguments and the files, [main] ends in an exception:
    no report is ever written. The world is as it was, but for the usage
    text on standard output when [docopt] left through [SystemExit]. *)
Lemma main_never_returns (argv : list string) (w : World) :
  exists e,
    main argv w
    = (Raise e,
       match docopt main_doc argv with
       | Raise (SystemExit _) => stream_write sys_stdout main_help w
       | _ => w
       end).
Proof.
  unfold main. unfold bind at 1, call_docopt.
  destruct (docopt main_doc argv) as [opt|e]; [|destruct e; eauto].
  unfold bind at 1, try_except, schema_validate.
  destruct (List.find _ opt); [eauto|].
  destruct (dict_get "<path>" opt) as [[| |p| | |]|e] eqn:Hget; try (simpl; eauto).
  destruct (pathexists p w); [|simpl; eauto].
  unfold bind, lift_outcome. rewrite Hget. simpl. eauto.
Qed.

End properties.

(** ** The reference codec gives back what it was given *)

Module ReferenceFacts.
Import Reference.
Local Open Scope list_scope.

Lemma run_app (bs bs' : list byte) (stack : list pyval) :
  run (bs ++ bs') stack
  = match run bs stack with Some stack' => run bs' stack' | None => None end.
Proof.
  revert stack. induction bs as [|b bs IH]; intros stack; simpl; [reflexivity|].
  destruct (step b stack); [apply IH|reflexivity].
Qed.

Lemma run_pos_ops (p : positive) (stack : list pyval) :
  run (pos_ops p) (VInt 0 :: stack) = Some (VInt (Zpos p) :: stack).
Proof.
  induction p as [p IH|p IH|]; simpl; [| |reflexivity];
    rewrite run_app, IH; reflexivity.
Qed.

Lemma run_int_ops (z : Z) (stack : list pyval) :
  run (int_ops z) stack = Some (VInt z :: stack).
Proof.
  destruct z as [|p|p]; [reflexivity| |].
  - unfold int_ops. cbn [run step]. apply run_pos_ops.
  - unfold int_ops. cbn [run step]. rewrite run_app, run_pos_ops. reflexivity.
Qed.

Lemma string_app_one (acc : string) (c : ascii) (s : string) :
  (acc +:+ String c "") +:+ s = acc +:+ String c s.
Proof. now rewrite string_app_assoc. Qed.

Lemma run_chars_ops (s acc : string) (stack : list pyval) :
  run (chars_ops s) (VStr acc :: stack) = Some (VStr (acc +:+ s) :: stack).
Proof.
  revert acc. induction s as [|c s IH]; intros acc.
  - simpl. now rewrite string_app_nil_r.
  - cbn [chars_ops]. rewrite run_app, run_int_ops. cbn [run step].
    rewrite N2Z.id, ascii_N_embedding, IH. now rewrite string_app_one.
Qed.

Lemma run_ops (v : pyval) : forall stack, run (ops v) stack = Some (v :: stack).
Proof.
  induction v as [|z|s|xs IH|xs IH|items IH] using pyval_nested_ind; intros stack.
  - reflexivity.
  - apply run_int_ops.
  - cbn [ops run step]. apply run_chars_ops.
  - cbn [ops run step].
    enough (Hgo : forall acc,
               run (flat_map (fun x => ops x ++ ["A"%byte]) xs) (VList acc :: stack)
               = Some (VList (acc ++ xs) :: stack)) by apply Hgo.
    induction IH as [|x xs Hx _ IHxs]; intros acc.
    + simpl. now rewrite app_nil_r.
    + cbn [flat_map]. rewrite run_app, run_app, Hx. cbn [run step].
      rewrite IHxs. now rewrite <- app_assoc.
  - cbn [ops run step].
    enough (Hgo : forall acc,
               run (flat_map (fun x => ops x ++ ["T"%byte]) xs) (VTuple acc :: stack)
               = Some (VTuple (acc ++ xs) :: stack)) by apply Hgo.
    induction IH as [|x xs Hx _ IHxs]; intros acc.
    + simpl. now rewrite app_nil_r.
    + cbn [flat_map]. rewrite run_app, run_app, Hx. cbn [run step].
      rewrite IHxs. now rewrite <- app_assoc.
  - cbn [ops run step].
    enough (Hgo : forall acc,
               run (flat_map (fun '(k, v) => ops k ++ ops v ++ ["S"%byte]) items)
                 (VDict acc :: stack)
               = Some (VDict (acc ++ items) :: stack)) by apply Hgo.
    induction IH as [|[k v] items [Hk Hv] _ IHitems]; intros acc.
    + simpl. now rewrite app_nil_r.
    + cbn [flat_map]. simpl in Hk, Hv.
      rewrite run_app, run_app, Hk, run_app, Hv. cbn [run step].
      rewrite IHitems. now rewrite <- app_assoc.
Qed.

Lemma loads_ops : pickle_exact (H := builtins).
Proof. intros v. cbn. unfold loads. now rewrite run_ops. Qed.

End ReferenceFacts.

(** ** The snapshot an object holds is read off its fields *)

Lemma map_injective {A B} (f : A -> B) :
  (forall x y, f x = f y -> x = y) ->
  forall l k : list A, map f l = map f k -> l = k.
Proof.
  intros Hf l. induction l as [|x l IH]; intros [|y k] Heq;
    try discriminate; [reflexivity|].
  simpl in Heq. injection Heq as Hxy Hlk. f_equal; auto.
Qed.

Lemma VInt_injective (x y : Z) : VInt x = VInt y -> x = y.
Proof. now intros [= ->]. Qed.

Lemma node_value_injective (n m : GraphNode) : node_value n = node_value m -> n = m.
Proof.
  destruct n, m. unfold node_value. simpl. intros [= -> -> Hr Hs].
  apply (map_injective _ VInt_injective) in Hr, Hs. now subst.
Qed.

(** Two snapshots held as the same values are the same snapshot. *)
Lemma holding_injective (p : string) (s s' : Snapshot) :
  holding p s = holding p s' -> s = s'.
Proof.
  destruct s as [st0 g], s' as [st1 g']. unfold holding. simpl.
  intros [= Hst Hg]. f_equal.
  - destruct st0 as [gens|], st1 as [gens'|]; try discriminate; [|reflexivity].
    simpl in Hst. injection Hst as Hst. f_equal.
    apply (map_injective (fun counters : list (string * Z) =>
             VDict (map (fun kv => (VStr (fst kv), VInt (snd kv))) counters)));
      [|exact Hst].
    intros c c' [= Hc]. revert Hc. apply map_injective.
    intros [a x] [b y]. simpl. now intros [= -> ->].
  - revert Hg. apply map_injective.
    intros [k n] [k' n'] Heq. cbn [fst snd] in Heq.
    assert (Hk : VInt k = VInt k') by congruence.
    assert (Hn : node_value n = node_value n') by congruence.
    now rewrite (VInt_injective _ _ Hk), (node_value_injective _ _ Hn).
Qed.

(** ** The properties on the sample process *)

#[local] Existing Instance Reference.builtins.

Lemma report_without_graph_fails_witness :
  PromDumpFile.graph (PromDumpFile.__init__ "dump.prom") = VNone
  /\ PromDumpFile.report None (PromDumpFile.__init__ "dump.prom", Sample.world)
     = (Raise (AssertionError "no memory graph"),
        (PromDumpFile.__init__ "dump.prom", Sample.world)).
Proof.
  split; [reflexivity|].
  apply (report_without_graph_fails None (PromDumpFile.__init__ "dump.prom") Sample.world).
  reflexivity.
Defined.

Lemma write_refuses_existing_path_witness :
  exists content,
    files Sample.dumped !! Sample.dump_path = Some content
    /\ PromDumpFile.write (PromDumpFile.__init__ Sample.dump_path, Sample.dumped)
       = (Raise (AssertionError ("cannot overwrite " +:+ Sample.dump_path)),
          (PromDumpFile.__init__ Sample.dump_path, Sample.dumped)).
Proof.
  eexists. split; [vm_compute; reflexivity|].
  eapply (proj1 (write_refuses_existing_path
                   (PromDumpFile.__init__ Sample.dump_path) Sample.dumped)).
  vm_compute. reflexivity.
Defined.


Lemma write_then_load_roundtrip_witness :
  exists d1 w1,
    PromDumpFile.write (holding "snap.prom" Sample.snapshot, Sample.world)
    = (Ok tt, (d1, w1))
    /\ d1 = holding "snap.prom" Sample.snapshot
    /\ forall d, PromDumpFile.path d = "snap.prom" ->
         exists w2,
           PromDumpFile.load (d, w1)
           = (Ok tt, (holding "snap.prom" Sample.snapshot, w2)).
Proof.
  eexists. eexists. split; [vm_compute; reflexivity|].
  apply (proj2 (write_then_load_roundtrip Sample.snapshot "snap.prom" Sample.world
                  ReferenceFacts.loads_ops)).
  vm_compute. reflexivity.
Defined.

Lemma write_gathers_iff_no_graph_witness :
  files Sample.world !! "snap.prom" = None
  /\ collections
       (snd (snd (PromDumpFile.write (holding "snap.prom" Sample.snapshot, Sample.world))))
     = collections Sample.world
  /\ fst (PromDumpFile.write (holding "snap.prom" Sample.snapshot, Sample.world)) = Ok tt.
Proof.
  split; [reflexivity|].
  destruct (proj1 (write_gathers_iff_no_graph
                     (holding "snap.prom" Sample.snapshot) Sample.world eq_refl)
              ltac:(discriminate)) as (Hcount & _ & Hopen).
  split; [exact Hcount|]. exact (proj1 Hopen).
Defined.

Lemma gather_without_stats_witness :
  gc_stats (runtime (Sample.world_of Sample.rt_old)) = None
  /\ PromDumpFile.gather (PromDumpFile.__init__ "dump.prom", Sample.world_of Sample.rt_old)
     = (Ok tt,
        ({| PromDumpFile.path := "dump.prom"; PromDumpFile.stats := VNone;
            PromDumpFile.graph := VDict (map entry Sample.heap) |},
         collected (Sample.world_of Sample.rt_old))).
Proof.
  split; [reflexivity|].
  apply (proj2 (proj2 (gather_without_stats (PromDumpFile.__init__ "dump.prom")
                         (Sample.world_of Sample.rt_old) eq_refl))).
  - repeat constructor; eexists; reflexivity.
  - refine (bool_decide_unpack _ _). vm_compute. exact I.
Defined.

(** C9, as stated, fails: on an object that holds statistics, a [gather]
    without [gc.get_stats] ends with those statistics still held, not
    with [None]. *)
Lemma gather_keeps_stale_stats :
  ~ (forall (B : Builtins) (self : PromDumpFile.t) (w : World),
       gc_stats (runtime w) = None ->
       Forall renders (gc_objects (runtime w)) ->
       NoDup (map o_id (gc_objects (runtime w))) ->
       fst (PromDumpFile.gather (self, w)) = Ok tt
       /\ PromDumpFile.stats (fst (snd (PromDumpFile.gather (self, w)))) = VNone).
Proof.
  intros Hall.
  destruct (Hall Reference.builtins (holding "snap.prom" Sample.snapshot)
              (Sample.world_of Sample.rt_old) eq_refl) as [_ Hnone].
  - repeat constructor; eexists; reflexivity.
  - refine (bool_decide_unpack _ _). vm_compute. exact I.
  - vm_compute in Hnone. discriminate.
Qed.

Lemma report_stats_section_witness :
  PromDumpFile.graph (holding "snap.prom" Sample.snapshot) <> VNone
  /\ PromDumpFile.report None (holding "snap.prom" Sample.snapshot, Sample.world)
     = PromDumpFile.report_graph sys_stdout
         (holding "snap.prom" Sample.snapshot,
          stream_write sys_stdout
            (stats_block [VDict [(VStr "collections", VInt 3)];
                          VDict [(VStr "collections", VInt 1)]])
            Sample.world).
Proof.
  split; [discriminate|].
  apply (proj1 (report_stats_section None (holding "snap.prom" Sample.snapshot)
                  Sample.world ltac:(discriminate))).
  reflexivity.
Defined.

Lemma report_fails_on_first_node_witness :
  snap_graph Sample.snapshot <> []
  /\ fst (PromDumpFile.report None (holding "snap.prom" Sample.snapshot, Sample.world))
     = Raise (ValueError "too many values to unpack (expected 3)").
Proof.
  split; [discriminate|].
  rewrite (report_fails_on_first_node None "snap.prom" Sample.snapshot Sample.world);
    [reflexivity|discriminate].
Defined.

Lemma handler_swallows_Exception_witness :
  PromDump._handler Sample.trigger 10 Sample.dumped
  = (Ok tt,
     add_log (LogException (AssertionError ("cannot overwrite " +:+ Sample.dump_path)))
       (add_log (LogMessage INFO "Received signal: 10, dumping") Sample.dumped)).
Proof.
  apply (handler_swallows_Exception Sample.trigger 10 Sample.dumped).
  - vm_compute. reflexivity.
  - reflexivity.
Defined.

(** C8, as stated, fails: an interrupt raised while an object renders
    itself is no [Exception]; the handler does not catch it and it reaches
    the interrupted program. *)
Lemma handler_lets_interrupt_through :
  ~ (forall (B : Builtins) (self : PromDump.t) (sig : Z) (w w1 : World) (e : exn),
       PromDump.dump self
         (add_log (LogMessage INFO ("Received signal: " +:+ pretty sig +:+ ", dumping")) w)
       = (Raise e, w1) ->
       PromDump._handler self sig w = (Ok tt, add_log (LogException e) w1)).
Proof.
  intros Hall.
  specialize (Hall Reference.builtins Sample.trigger 10
                (Sample.world_of Sample.rt_interrupted)
                (collected (add_log (LogMessage INFO "Received signal: 10, dumping")
                              (Sample.world_of Sample.rt_interrupted)))
                KeyboardInterrupt).
  assert (Hraised : fst (PromDump._handler Sample.trigger 10
                           (Sample.world_of Sample.rt_interrupted))
                    = Raise KeyboardInterrupt) by (vm_compute; reflexivity).
  rewrite Hall in Hraised; [discriminate|].
  vm_compute. reflexivity.
Qed.

Lemma main_reports_nothing_witness :
  is_Some (files Sample.dumped !! Sample.dump_path)
  /\ fst (PromDumpFile.load (PromDumpFile.__init__ Sample.dump_path, Sample.dumped)) = Ok tt
  /\ main [Sample.dump_path] Sample.dumped
     = (Raise (AssertionError "no memory graph"), Sample.dumped).
Proof.
  assert (Hfile : is_Some (files Sample.dumped !! Sample.dump_path))
    by (vm_compute; eauto).
  split; [exact Hfile|]. split; [vm_compute; reflexivity|].
  apply (main_reports_nothing [Sample.dump_path] Sample.dump_path Sample.dumped).
  - reflexivity.
  - exact Hfile.
Defined.


(** * More properties *)

Section more_properties.
Context `{Builtins}.

Import PromDumpFile.

Ltac run :=
  unfold bind, ret, raise, gets, modify, self_, on_self, in_world,
    lift_outcome, assert_, try_except, LOGGER, gc_collect, gc_get_stats,
    gc_get_objects, open_rb, open_wb, file_write; simpl.

(** ** gather, whatever the objects *)

Lemma gather_eq (self : t) (w : World) :
  gather (self, w)
  = for_each (gc_objects (runtime w)) gather_turn
      ({| path := path self; stats := gathered_stats w (stats self); graph := VDict [] |},
       collected w).
Proof.
  unfold gather, gathered_stats. run.
  now destruct (gc_stats (runtime w)).
Qed.

(** A loop over a list in two parts is the loop over the first and then,
    if that ended, the loop over the second. *)
Lemma for_each_app {S A} (xs ys : list A) (body : A -> M S unit) (s : S) :
  for_each (xs ++ ys) body s
  = match for_each xs body s with
    | (Ok _, s') => for_each ys body s'
    | (Raise e, s') => (Raise e, s')
    end.
Proof.
  revert s. induction xs as [|x xs IH]; intros s; [reflexivity|].
  simpl. unfold bind. destruct (body x s) as [[[]|e] s1]; [apply IH|reflexivity].
Qed.

(** As [for_each_invariant], the turns known to be for elements of the
    list. *)
Lemma for_each_invariant_in {S A} (I : S -> Prop) (xs : list A) (body : A -> M S unit) :
  (forall x s, x ∈ xs -> I s -> I (snd (body x s))) ->
  forall s, I s -> I (snd (for_each xs body s)).
Proof.
  induction xs as [|x xs IH]; intros Hbody s Hs; simpl; [exact Hs|].
  unfold bind.
  assert (Hx : I (snd (body x s))) by (apply Hbody; [apply elem_of_cons; now left|exact Hs]).
  destruct (body x s) as [[[]|e] s1]; simpl in *; [|exact Hx].
  apply IH; [|exact Hx].
  intros y s' Hy. apply Hbody. apply elem_of_cons. now right.
Qed.

Lemma gather_graph_dict (self : t) (w : World) :
  exists items, graph (fst (snd (gather (self, w)))) = VDict items.
Proof.
  rewrite gather_eq.
  apply (for_each_invariant (fun s => exists items, graph (fst s) = VDict items));
    [|eexists; reflexivity].
  intros obj [self0 w0] [items Hitems]. cbn [fst] in Hitems.
  unfold gather_turn, obj_dump, graph_setitem. run.
  destruct (o_str obj) as [desc|e]; simpl; [|eexists; exact Hitems].
  rewrite Hitems. simpl. eexists; reflexivity.
Qed.

(** When the tracked objects render and have identities of their own,
    [gather] ends with the statistics of the collector, if it has any,
    and the items of the objects. *)
Lemma gather_renders (self : t) (w : World) :
  Forall renders (gc_objects (runtime w)) ->
  NoDup (map o_id (gc_objects (runtime w))) ->
  gather (self, w)
  = (Ok tt, ({| path := path self; stats := gathered_stats w (stats self);
                graph := VDict (map entry (gc_objects (runtime w))) |},
             collected w)).
Proof.
  intros Hr Hnd. rewrite gather_eq.
  exact (gather_loop (gc_objects (runtime w)) []
           {| path := path self; stats := gathered_stats w (stats self); graph := VDict [] |}
           (collected w) eq_refl Hr Hnd).
Qed.

(** ** write, dump and the handler on the files *)

Lemma write_keeps_file (self : t) (w : World) (p : string) (c : list byte) :
  files w !! p = Some c ->
  files (snd (snd (write (self, w)))) !! p = Some c.
Proof.
  intros Hp. destruct (files w !! path self) as [c'|] eqn:Hfile.
  - rewrite write_existing by (rewrite Hfile; eauto). exact Hp.
  - rewrite (write_fresh _ _ Hfile).
    assert (Hne : path self <> p) by (intros Heq; rewrite Heq in Hfile; congruence).
    destruct (is_None (graph self)).
    + pose proof (gather_keeps self w) as [_ Hw].
      destruct (gather (self, w)) as [[[]|e] [self1 w1]]; simpl in Hw; subst w1; simpl.
      * destruct (unopenable w !! path self); simpl; [exact Hp|].
        now rewrite lookup_insert_ne.
      * exact Hp.
    + destruct (unopenable w !! path self); simpl; [exact Hp|].
      now rewrite lookup_insert_ne.
Qed.

Lemma dump_eq (self : PromDump.t) (w : World) :
  PromDump.dump self w
  = match format_template (PromDump.name_template self) (info_of w) with
    | Raise e => (Raise e, w)
    | Ok name =>
        match write (__init__ (pathjoin (PromDump.path self) name), w) with
        | (Ok _, (d, w')) => (Ok d, w')
        | (Raise e, (_, w')) => (Raise e, w')
        end
    end.
Proof.
  unfold PromDump.dump, get_process_info, bind, gets, lift_outcome, info_of.
  now destruct (format_template _ _).
Qed.

Lemma dump_keeps_file (self : PromDump.t) (w : World) (p : string) (c : list byte) :
  files w !! p = Some c ->
  files (snd (PromDump.dump self w)) !! p = Some c.
Proof.
  intros Hp. rewrite dump_eq.
  destruct (format_template _ _) as [name|e]; [|exact Hp].
  pose proof (write_keeps_file (__init__ (pathjoin (PromDump.path self) name)) w p c Hp)
    as Hkeep.
  now destruct (write _) as [[[]|e] [d w']].
Qed.

Lemma handler_eq (self : PromDump.t) (sig : Z) (w : World) :
  PromDump._handler self sig w
  = match PromDump.dump self
            (add_log (LogMessage INFO ("Received signal: " +:+ pretty sig +:+ ", dumping")) w)
    with
    | (Ok _, w') => (Ok tt, w')
    | (Raise e, w') =>
        if is_Exception e then (Ok tt, add_log (LogException e) w') else (Raise e, w')
    end.
Proof.
  unfold PromDump._handler, bind, try_except, LOGGER, modify, ret.
  now destruct (PromDump.dump self _) as [[d|e] w'].
Qed.

(** X1. A file that exists is never changed or removed, by [write], by
    [dump] or by the handler, whether they end or raise. *)
Theorem existing_files_are_kept (w : World) (p : string) (c : list byte) :
  files w !! p = Some c ->
  (forall self, files (snd (snd (write (self, w)))) !! p = Some c)
  /\ (forall trigger, files (snd (PromDump.dump trigger w)) !! p = Some c)
  /\ (forall trigger sig, files (snd (PromDump._handler trigger sig w)) !! p = Some c).
Proof.
  intros Hp. split; [|split].
  - intros self. now apply write_keeps_file.
  - intros trigger. now apply dump_keeps_file.
  - intros trigger sig. rewrite handler_eq.
    pose proof (dump_keeps_file trigger
                  (add_log (LogMessage INFO
                              ("Received signal: " +:+ pretty sig +:+ ", dumping")) w)
                  p c Hp) as Hkeep.
    destruct (PromDump.dump trigger _) as [[d|e] w']; [exact Hkeep|].
    now destruct (is_Exception e).
Qed.

(** What a dump that returned has done. *)
Lemma dump_returned (self : PromDump.t) (w w' : World) (d : t) :
  PromDump.dump self w = (Ok d, w') ->
  exists name,
    format_template (PromDump.name_template self) (info_of w) = Ok name
    /\ files w !! pathjoin (PromDump.path self) name = None
    /\ path d = pathjoin (PromDump.path self) name
    /\ (exists items, graph d = VDict items)
    /\ w' = stored (path d) (pickle_dumps (VTuple [stats d; graph d])) (collected w).
Proof.
  rewrite dump_eq. destruct (format_template _ _) as [name|e]; [|discriminate].
  intros Hw. exists name. split; [reflexivity|].
  set (p := pathjoin (PromDump.path self) name) in *.
  destruct (files w !! p) as [c|] eqn:Hfile.
  { rewrite write_existing in Hw by (simpl; rewrite Hfile; eauto). discriminate. }
  split; [reflexivity|].
  rewrite (write_fresh (__init__ p) w Hfile) in Hw. simpl in Hw.
  pose proof (gather_keeps (__init__ p) w) as [Hpath Hworld].
  pose proof (gather_graph_dict (__init__ p) w) as Hdict.
  destruct (gather (__init__ p, w)) as [[[]|e] [self1 w1]]; [|discriminate].
  destruct (unopenable w !! p); [discriminate|].
  simpl in Hpath, Hworld, Hdict. injection Hw as <- <-.
  rewrite Hpath. subst w1. auto.
Qed.

(** X2. The object a dump returns holds a graph, a dictionary, and the
    file at its path exists: what [test_dump] asserts. The world is the
    one before with the collection counted, three messages logged and
    that one file added. *)
Theorem dump_returns_written_object (self : PromDump.t) (w w' : World) (d : t) :
  PromDump.dump self w = (Ok d, w') ->
  graph d <> VNone
  /\ (exists items, graph d = VDict items)
  /\ pathexists (path d) w' = true
  /\ files w !! path d = None
  /\ files w' = <[path d := pickle_dumps (VTuple [stats d; graph d])]> (files w)
  /\ collections w' = S (collections w).
Proof.
  intros Hdump.
  destruct (dump_returned _ _ _ _ Hdump) as (name & _ & Hfree & Hpath & [items Hg] & ->).
  split; [rewrite Hg; discriminate|]. split; [now exists items|].
  split; [|split; [now rewrite Hpath|split; reflexivity]].
  unfold pathexists, stored, set_files. simpl.
  apply bool_decide_eq_true_2. rewrite lookup_insert_eq. eauto.
Qed.

(** X3. A second dump by the same trigger while the clock shows the same
    time aims at the same file and raises the assertion error of [write];
    the world stays as the first dump left it. *)
Theorem dump_twice_same_clock (self : PromDump.t) (w w' : World) (d : t) :
  PromDump.dump self w = (Ok d, w') ->
  PromDump.dump self w' = (Raise (AssertionError ("cannot overwrite " +:+ path d)), w').
Proof.
  intros Hdump.
  destruct (dump_returned _ _ _ _ Hdump) as (name & Hname & _ & Hpath & _ & ->).
  rewrite dump_eq.
  change (info_of (stored (path d) (pickle_dumps (VTuple [stats d; graph d])) (collected w)))
    with (info_of w).
  rewrite Hname, <- Hpath.
  rewrite write_existing; [reflexivity|].
  unfold stored, set_files. simpl. rewrite lookup_insert_eq. eauto.
Qed.

(** ** The name of the dump *)

Lemma format_default_template (w : World) :
  format_template FILE_NAME_TEMPLATE (info_of w) = Ok (default_name w).
Proof. reflexivity. Qed.

Lemma prefix_slash (rest tail : string) :
  String.prefix "/" (String "/" rest +:+ tail) = true.
Proof.
  change (String "/" rest +:+ tail) with (String "/" (rest +:+ tail)).
  cbn [String.prefix]. destruct (ascii_dec "/" "/") as [_|Hne].
  - now destruct (rest +:+ tail).
  - now contradiction Hne.
Qed.

(** X4. With the default template the dump goes to the join of the
    trigger's directory and [<argv0>-<pid>-<time>.prom]; when [argv0] is an
    absolute path that join is the name alone, and the trigger's directory
    plays no part. *)
Theorem dump_default_path (self : PromDump.t) (w w' : World) (d : t) :
  PromDump.name_template self = FILE_NAME_TEMPLATE ->
  PromDump.dump self w = (Ok d, w') ->
  path d = pathjoin (PromDump.path self) (default_name w)
  /\ (forall rest, argv0 (runtime w) = String "/" rest -> path d = default_name w).
Proof.
  intros Htemplate Hdump.
  destruct (dump_returned _ _ _ _ Hdump) as (name & Hname & _ & Hpath & _).
  rewrite Htemplate, format_default_template in Hname. injection Hname as <-.
  split; [exact Hpath|].
  intros rest Habs. rewrite Hpath. unfold pathjoin, default_name. rewrite Habs.
  now rewrite (prefix_slash rest).
Qed.

Lemma format_template_missing_key (template : list piece) (info : list (string * pyval))
    (key : string) (conv : ascii) :
  In (Field key conv) template ->
  dict_get key info = Raise (KeyError key) ->
  exists e, format_template template info = Raise e.
Proof.
  intros Hin Hget. induction template as [|p template IH]; [contradiction|].
  simpl. destruct Hin as [->|Hin].
  - simpl. rewrite Hget. eauto.
  - destruct (format_piece info p) as [text|e]; [|eauto].
    destruct (IH Hin) as [e ->]. eauto.
Qed.

(** X5. A template with a field whose key is none of [ts], [pid] and
    [name] makes [dump] raise before anything is collected, logged or
    written: the world is as it was. *)
Theorem dump_unknown_field (self : PromDump.t) (w : World) (key : string) (conv : ascii) :
  In (Field key conv) (PromDump.name_template self) ->
  key <> "ts" -> key <> "pid" -> key <> "name" ->
  exists e, PromDump.dump self w = (Raise e, w).
Proof.
  intros Hin Hts Hpid Hname.
  assert (Hget : dict_get key (info_of w) = Raise (KeyError key)).
  { assert (H1 : String.eqb "ts" key = false) by (apply String.eqb_neq; congruence).
    assert (H2 : String.eqb "pid" key = false) by (apply String.eqb_neq; congruence).
    assert (H3 : String.eqb "name" key = false) by (apply String.eqb_neq; congruence).
    unfold dict_get, info_of. cbn [List.find fst snd]. now rewrite H1, H2, H3. }
  destruct (format_template_missing_key _ _ _ _ Hin Hget) as [e He].
  exists e. now rewrite dump_eq, He.
Qed.

(** ** The keys of the gathered graph *)

Lemma has_key_false (k : Z) (items : list (pyval * pyval)) :
  has_key k items = false -> VInt k ∉ map fst items.
Proof.
  induction items as [|[key v] items IH]; simpl; intros Hk Hin.
  - now apply elem_of_nil in Hin.
  - apply elem_of_cons in Hin as [Heq|Hin].
    + subst key. now destruct (decide (k = k)).
    + destruct key as [|k'| | | |]; try (now apply IH).
      destruct (decide (k' = k)); [discriminate|now apply IH].
Qed.

Lemma dict_setitem_keys (k : Z) (v : pyval) (items : list (pyval * pyval)) :
  map fst (dict_setitem k v items)
  = if has_key k items then map fst items else (map fst items ++ [VInt k])%list.
Proof.
  induction items as [|[key v'] items IH]; [reflexivity|].
  destruct key as [|k'| | | |]; simpl; try (rewrite IH; now destruct (has_key k items)).
  destruct (decide (k' = k)) as [->|Hne]; [reflexivity|].
  simpl. rewrite IH. now destruct (has_key k items).
Qed.

Lemma has_key_setitem (k k' : Z) (v : pyval) (items : list (pyval * pyval)) :
  has_key k' (dict_setitem k v items) = true
  <-> k' = k \/ has_key k' items = true.
Proof.
  induction items as [|[key v'] items IH]; simpl.
  - destruct (decide (k = k')); split; intros; auto; try discriminate.
    + destruct H0 as [->|]; [contradiction|discriminate].
  - destruct key as [|k0| | | |]; simpl; try exact IH.
    destruct (decide (k0 = k)) as [->|Hne]; simpl.
    + destruct (decide (k = k')); split; intros; auto.
      destruct H0 as [->|]; [contradiction|assumption].
    + destruct (decide (k0 = k')); [split; auto|exact IH].
Qed.

(** One turn keeps the keys distinct and among the identities handed to
    the loop. *)
Lemma gather_turn_keys (objs : list HeapObj) (obj : HeapObj) (s : st) :
  obj ∈ objs ->
  (exists items, graph (fst s) = VDict items /\ NoDup (map fst items)
     /\ forall key, key ∈ map fst items ->
           exists o, o ∈ objs /\ key = VInt (o_id o)) ->
  exists items, graph (fst (snd (gather_turn obj s))) = VDict items
     /\ NoDup (map fst items)
     /\ forall key, key ∈ map fst items ->
           exists o, o ∈ objs /\ key = VInt (o_id o).
Proof.
  destruct s as [self w]. intros Hobj (items & Hg & Hnd & Hkeys). cbn [fst] in Hg.
  unfold gather_turn, obj_dump, graph_setitem. run.
  destruct (o_str obj) as [desc|e]; simpl; [|now exists items].
  rewrite Hg. simpl. eexists. split; [reflexivity|].
  rewrite dict_setitem_keys. destruct (has_key (o_id obj) items) eqn:Hhas.
  - now split.
  - split.
    + apply NoDup_app. split; [exact Hnd|]. split; [|apply NoDup_singleton].
      intros key Hin Hlast. apply list_elem_of_singleton in Hlast. subst key.
      now apply (has_key_false _ _ Hhas).
    + intros key Hin. apply elem_of_app in Hin as [Hin|Hin]; [now apply Hkeys|].
      apply list_elem_of_singleton in Hin. subst key. now exists obj.
Qed.

(** A loop that ended has set a key for every object it went over. *)
Lemma gather_loop_sets_keys (objs : list HeapObj) (self self' : t) (w w' : World) items :
  graph self = VDict items ->
  for_each objs gather_turn (self, w) = (Ok tt, (self', w')) ->
  exists items',
    graph self' = VDict items'
    /\ (forall k, has_key k items = true -> has_key k items' = true)
    /\ (forall obj, obj ∈ objs -> has_key (o_id obj) items' = true).
Proof.
  revert self items. induction objs as [|obj objs IH]; intros self items Hg.
  - simpl. intros [= <- <-]. exists items. split; [exact Hg|]. split; [auto|].
    intros obj Hin. now apply elem_of_nil in Hin.
  - simpl. destruct (o_str obj) as [desc|e] eqn:Hstr.
    + rewrite (bind_ok _ _ _ _ _ (gather_turn_renders obj self w items desc Hg Hstr)).
      intros Hloop.
      destruct (IH (set_graph (VDict (dict_setitem (o_id obj) (node_of obj desc) items)) self)
                  _ eq_refl Hloop) as (items' & Hg' & Hmono & Hall).
      exists items'. split; [exact Hg'|]. split.
      * intros k Hk. apply Hmono. apply has_key_setitem. now right.
      * intros o Hin. apply elem_of_cons in Hin as [->|Hin]; [|now apply Hall].
        apply Hmono. apply has_key_setitem. now left.
    + unfold bind, gather_turn, lift_outcome, obj_dump. rewrite Hstr. discriminate.
Qed.

(** X6. Whether [gather] ends or raises, it leaves a graph that is a
    dictionary whose keys are distinct and are each the identity of a
    tracked object; when it ends, the identity of every tracked object is
    a key. Nothing is asked of the objects. *)
Theorem gather_keys (self : t) (w : World) :
  exists items,
    graph (fst (snd (gather (self, w)))) = VDict items
    /\ NoDup (map fst items)
    /\ (forall key, key ∈ map fst items ->
          exists obj, obj ∈ gc_objects (runtime w) /\ key = VInt (o_id obj))
    /\ (fst (gather (self, w)) = Ok tt ->
        forall obj, obj ∈ gc_objects (runtime w) -> has_key (o_id obj) items = true).
Proof.
  rewrite gather_eq.
  set (start := ({| path := path self; stats := gathered_stats w (stats self);
                    graph := VDict [] |}, collected w)).
  assert (Hinv : exists items,
             graph (fst (snd (for_each (gc_objects (runtime w)) gather_turn start)))
             = VDict items
             /\ NoDup (map fst items)
             /\ forall key, key ∈ map fst items ->
                   exists o, o ∈ gc_objects (runtime w) /\ key = VInt (o_id o)).
  { apply (for_each_invariant_in
             (fun s => exists items, graph (fst s) = VDict items /\ NoDup (map fst items)
                /\ forall key, key ∈ map fst items ->
                      exists o, o ∈ gc_objects (runtime w) /\ key = VInt (o_id o))).
    - intros obj s Hobj Hs. now apply gather_turn_keys.
    - exists []. split; [reflexivity|]. split; [apply NoDup_nil_2|].
      intros key Hin. now apply elem_of_nil in Hin. }
  destruct Hinv as (items & Hg & Hnd & Hkeys).
  exists items. split; [exact Hg|]. split; [exact Hnd|]. split; [exact Hkeys|].
  intros Hok.
  destruct (for_each (gc_objects (runtime w)) gather_turn start)
    as [[[]|e] [self' w']] eqn:Hloop; [|discriminate].
  destruct (gather_loop_sets_keys (gc_objects (runtime w)) (fst start) self'
              (collected w) w' [] eq_refl Hloop) as (items' & Hg' & _ & Hall).
  cbn [fst snd] in Hg. rewrite Hg in Hg'. injection Hg' as <-. exact Hall.
Qed.

(** X7. Where [gc.get_stats] exists and the tracked objects render and
    have identities of their own, [gather] ends with those statistics and
    the items of all the objects, in their order: the statistics and the
    graph the object held before play no part. *)
Theorem gather_replaces_snapshot (self : t) (w : World) (st0 : pyval) :
  gc_stats (runtime w) = Some st0 ->
  Forall renders (gc_objects (runtime w)) ->
  NoDup (map o_id (gc_objects (runtime w))) ->
  gather (self, w)
  = (Ok tt, ({| path := path self; stats := st0;
                graph := VDict (map entry (gc_objects (runtime w))) |},
             collected w)).
Proof.
  intros Hstats Hr Hnd. rewrite (gather_renders self w Hr Hnd).
  unfold gathered_stats. now rewrite Hstats.
Qed.

(** X8. [gather] stops at the first tracked object whose rendering
    raises: it raises the same, and the object is left with the
    statistics already assigned and a graph of the objects before that
    one only. *)
Theorem gather_stops_at_first_failure (self : t) (w : World)
    (done rest : list HeapObj) (bad : HeapObj) (e : exn) :
  gc_objects (runtime w) = (done ++ bad :: rest)%list ->
  Forall renders done ->
  NoDup (map o_id done) ->
  o_str bad = Raise e ->
  gather (self, w)
  = (Raise e, ({| path := path self; stats := gathered_stats w (stats self);
                  graph := VDict (map entry done) |},
               collected w)).
Proof.
  intros Hobjs Hr Hnd Hbad. rewrite gather_eq, Hobjs, for_each_app.
  rewrite (gather_loop done []
             {| path := path self; stats := gathered_stats w (stats self);
                graph := VDict [] |}
             (collected w) eq_refl Hr Hnd).
  simpl. unfold bind, gather_turn, lift_outcome, obj_dump. now rewrite Hbad.
Qed.

(** X9. After a [gather] that raised, the object holds a graph, so a
    [write] that follows, to a path that holds no file and can be
    opened, stores that graph, short as it may be, and does not collect
    again. *)
Theorem write_after_failed_gather (self self1 : t) (w w1 : World) (e : exn) :
  gather (self, w) = (Raise e, (self1, w1)) ->
  files w !! path self = None ->
  unopenable w !! path self = None ->
  graph self1 <> VNone
  /\ write (self1, w1)
     = (Ok tt, (self1, stored (path self)
                         (pickle_dumps (VTuple [stats self1; graph self1])) w1))
  /\ collections (stored (path self)
                    (pickle_dumps (VTuple [stats self1; graph self1])) w1)
     = collections w1.
Proof.
  intros Hgather Hfree Hopen.
  pose proof (gather_keeps self w) as [Hpath Hworld].
  pose proof (gather_graph_dict self w) as [items Hitems].
  rewrite Hgather in Hpath, Hworld, Hitems. simpl in Hpath, Hworld, Hitems.
  split; [rewrite Hitems; discriminate|]. split; [|reflexivity].
  assert (Hfree1 : files w1 !! path self1 = None) by (now rewrite Hpath, Hworld).
  assert (Hopen1 : unopenable w1 !! path self1 = None) by (now rewrite Hpath, Hworld).
  assert (Hheld : is_None (graph self1) = false) by now rewrite Hitems.
  now rewrite (write_fresh self1 w1 Hfree1), Hheld, Hopen1, Hpath.
Qed.

(** ** The handler *)

(** X10. Whatever leaves the handler is no instance of [Exception]. *)
Theorem handler_raises_no_Exception (self : PromDump.t) (sig : Z) (w w' : World)
    (e : exn) :
  PromDump._handler self sig w = (Raise e, w') -> is_Exception e = false.
Proof.
  rewrite handler_eq.
  destruct (PromDump.dump self _) as [[d|e0] w0]; [discriminate|].
  destruct (is_Exception e0) eqn:Hcls; [discriminate|].
  now intros [= <- _].
Qed.

(** What the handler does once the template has given a name for a file
    that is not there and the tracked objects render and have identities
    of their own: the dump is stored if the file can be opened, else the
    error of [open] is logged. *)
Lemma handler_gathered (self : PromDump.t) (sig : Z) (w : World) (name : string) :
  format_template (PromDump.name_template self) (info_of w) = Ok name ->
  files w !! pathjoin (PromDump.path self) name = None ->
  Forall renders (gc_objects (runtime w)) ->
  NoDup (map o_id (gc_objects (runtime w))) ->
  PromDump._handler self sig w
  = let p := pathjoin (PromDump.path self) name in
    let w0 := collected (add_log (LogMessage INFO
                                    ("Received signal: " +:+ pretty sig +:+ ", dumping")) w) in
    match unopenable w !! p with
    | None =>
        (Ok tt, stored p (pickle_dumps
                            (VTuple [gathered_stats w VNone;
                                     VDict (map entry (gc_objects (runtime w)))])) w0)
    | Some code =>
        (Ok tt, add_log (LogException (os_error code p))
                  (add_log (LogMessage DEBUG ("Saving memory graph to: " +:+ p)) w0))
    end.
Proof.
  intros Hname Hfree Hr Hnd. rewrite handler_eq, dump_eq.
  set (w0 := add_log _ w).
  change (info_of w0) with (info_of w). rewrite Hname.
  rewrite (write_fresh (__init__ (pathjoin (PromDump.path self) name)) w0 Hfree).
  cbn [graph __init__ is_None].
  rewrite (gather_renders _ w0 Hr Hnd). cbv zeta.
  change (unopenable w0) with (unopenable w).
  change (path (__init__ (pathjoin (PromDump.path self) name)))
    with (pathjoin (PromDump.path self) name).
  destruct (unopenable w !! pathjoin (PromDump.path self) name) as [code|];
    [|reflexivity].
  now destruct code.
Qed.

(** X11. When the template formats to a name, the file it names is not
    there and can be opened, and the tracked objects render and have
    identities of their own, the handler returns normally and the files
    are those before and one more, at that name: the pickle of the pair
    of the collector's statistics ([None] without [gc.get_stats]) and
    the graph of all the tracked objects. *)
Theorem handler_writes_one_file (self : PromDump.t) (sig : Z) (w : World) (name : string) :
  format_template (PromDump.name_template self) (info_of w) = Ok name ->
  files w !! pathjoin (PromDump.path self) name = None ->
  unopenable w !! pathjoin (PromDump.path self) name = None ->
  Forall renders (gc_objects (runtime w)) ->
  NoDup (map o_id (gc_objects (runtime w))) ->
  fst (PromDump._handler self sig w) = Ok tt
  /\ files (snd (PromDump._handler self sig w))
     = <[pathjoin (PromDump.path self) name :=
           pickle_dumps (VTuple [gathered_stats w VNone;
                                 VDict (map entry (gc_objects (runtime w)))])]> (files w).
Proof.
  intros Hname Hfree Hopen Hr Hnd.
  rewrite (handler_gathered self sig w name Hname Hfree Hr Hnd). cbv zeta.
  rewrite Hopen. now split.
Qed.

(** X25. Under the same conditions but that the file cannot be opened
    (its directory is missing, say, as when [argv[0]] names the program
    under a directory), the handler still returns normally: it has
    collected and gathered, then logged the error of [open], and no file
    has been created or changed. *)
Theorem handler_logs_refused_open (self : PromDump.t) (sig : Z) (w : World)
    (name : string) (code : errno) :
  format_template (PromDump.name_template self) (info_of w) = Ok name ->
  files w !! pathjoin (PromDump.path self) name = None ->
  unopenable w !! pathjoin (PromDump.path self) name = Some code ->
  Forall renders (gc_objects (runtime w)) ->
  NoDup (map o_id (gc_objects (runtime w))) ->
  fst (PromDump._handler self sig w) = Ok tt
  /\ files (snd (PromDump._handler self sig w)) = files w
  /\ collections (snd (PromDump._handler self sig w)) = S (collections w)
  /\ List.last (log (snd (PromDump._handler self sig w))) (LogMessage DEBUG "")
     = LogException (os_error code (pathjoin (PromDump.path self) name)).
Proof.
  intros Hname Hfree Hopen Hr Hnd.
  rewrite (handler_gathered self sig w name Hname Hfree Hr Hnd). cbv zeta.
  rewrite Hopen. cbn [fst snd]. repeat split.
  unfold add_log at 1. cbn [log]. apply List.last_last.
Qed.

(** ** report on nodes of three fields *)

Lemma report_row_three_fields (f : stream) (start : nat) (item : pyval * pyval)
    (self : t) (w : World) (acc : string) :
  is_row item ->
  report_row f (start, item) (self, stream_write f acc w)
  = (Ok tt, (self, stream_write f
                     (acc +:+ (if (start mod 100 =? 0)%nat then table_heading else "")
                          +:+ row_line item) w)).
Proof.
  intros (z & a & b & c & ->).
  assert (Hunpack : unpack 3 (VTuple [a; b; c]) = Ok [a; b; c]) by reflexivity.
  unfold report_row, bind, in_world, modify, ret, lift_outcome. rewrite Hunpack.
  cbn [fst snd format_i nth row_line].
  destruct (start mod 100 =? 0)%nat; cbn [fst snd].
  - rewrite !stream_write_write. now rewrite string_app_assoc.
  - now rewrite stream_write_write.
Qed.

Lemma report_rows_loop (f : stream) (items : list (pyval * pyval)) (start : nat)
    (self : t) (w : World) (acc : string) :
  Forall is_row items ->
  for_each (enumerate_from start items) (report_row f) (self, stream_write f acc w)
  = (Ok tt, (self, stream_write f (acc +:+ rows_from start items) w)).
Proof.
  intros Hrows. revert start acc.
  induction Hrows as [|item items Hitem _ IH]; intros start acc.
  - simpl. now rewrite string_app_nil_r.
  - cbn [enumerate_from for_each rows_from].
    rewrite (bind_ok _ _ _ _ _ (report_row_three_fields f start item self w acc Hitem)).
    rewrite IH. now rewrite !string_app_assoc.
Qed.

(** No table heading from a row past the first up to the hundredth. *)
Lemma rows_from_within (items : list (pyval * pyval)) (start : nat) :
  (0 < start)%nat -> (start + length items <= 100)%nat ->
  rows_from start items = row_lines items.
Proof.
  revert start. induction items as [|item items IH]; intros start Hpos Hlen;
    [reflexivity|].
  cbn [rows_from row_lines length] in *.
  rewrite Nat.mod_small by lia.
  destruct start as [|n]; [lia|]. cbn [Nat.eqb].
  rewrite IH by lia. reflexivity.
Qed.

Lemma rows_from_shift (items : list (pyval * pyval)) (start : nat) :
  rows_from (start + 100) items = rows_from start items.
Proof.
  revert start. induction items as [|item items IH]; intros start; [reflexivity|].
  cbn [rows_from].
  replace ((start + 100) mod 100)%nat with (start mod 100)%nat
    by (symmetry; apply (Nat.Div0.mod_add start 1 100)).
  now rewrite <- (IH (S start)).
Qed.

Lemma rows_from_app (first more : list (pyval * pyval)) (start : nat) :
  rows_from start (first ++ more)
  = rows_from start first +:+ rows_from (start + length first) more.
Proof.
  revert start. induction first as [|item first IH]; intros start.
  - simpl. now rewrite Nat.add_0_r.
  - cbn [app rows_from length]. rewrite IH, !string_app_assoc.
    now replace (S start + length first)%nat with (start + S (length first))%nat by lia.
Qed.

(** The table of at most a hundred rows: nothing for none, else the
    heading and the lines. *)
Lemma rows_from_first (items : list (pyval * pyval)) :
  (length items <= 100)%nat ->
  rows_from 0 items
  = match items with [] => "" | _ => table_heading +:+ row_lines items end.
Proof.
  destruct items as [|item items]; [reflexivity|]. intros Hlen.
  cbn [rows_from row_lines length] in *. cbn [Nat.modulo Nat.eqb].
  rewrite (rows_from_within items 1) by lia. reflexivity.
Qed.

(** What [report] writes when every item of the graph is a row. *)
Lemma report_rows (f : option stream) (self : t) (w : World) items :
  graph self = VDict items ->
  Forall is_row items ->
  stats self = VNone \/ (exists records, stats self = VList records) ->
  report f (self, w)
  = (Ok tt, (self, stream_write (default sys_stdout f)
                     (stats_text (stats self) +:+ graph_heading +:+ rows_from 0 items) w)).
Proof.
  intros Hg Hrows Hs.
  assert (Hheld : graph self <> VNone) by (rewrite Hg; discriminate).
  rewrite (report_with_graph _ _ _ Hheld).
  assert (Hgraph : forall w0,
             report_graph (default sys_stdout f) (self, w0)
             = (Ok tt, (self, stream_write (default sys_stdout f)
                                (graph_heading +:+ rows_from 0 items) w0))).
  { intros w0. rewrite report_graph_eq, Hg. cbn [py_items]. unfold enumerate.
    now rewrite report_rows_loop. }
  destruct Hs as [Hs|[records Hs]].
  - rewrite (bind_ok _ _ _ _ _ (report_stats_absent _ self w Hs)), Hgraph.
    now rewrite Hs.
  - rewrite (bind_ok _ _ _ _ _ (report_stats_present _ self w records Hs)), Hgraph.
    now rewrite stream_write_write, Hs.
Qed.

(** X12. On a graph of at most a hundred items, each an integer identity
    with a node of three fields, [report] returns normally having
    written the statistics block if there are statistics, 'Object graph',
    and, unless the graph is empty, the table heading once and one line
    per item, in the order of the dictionary, with the identity and the
    text of the first field. *)
Theorem report_three_field_nodes (f : option stream) (self : t) (w : World) items :
  graph self = VDict items ->
  Forall is_row items ->
  (length items <= 100)%nat ->
  stats self = VNone \/ (exists records, stats self = VList records) ->
  report f (self, w)
  = (Ok tt,
     (self, stream_write (default sys_stdout f)
              (stats_text (stats self) +:+ graph_heading
                 +:+ match items with
                     | [] => ""
                     | _ => table_heading +:+ row_lines items
                     end) w)).
Proof.
  intros Hg Hrows Hlen Hs.
  now rewrite (report_rows f self w items Hg Hrows Hs), (rows_from_first items Hlen).
Qed.

(** X13. Past a hundred rows the table heading comes again: for a graph
    of a hundred items and up to a hundred more, [report] writes the
    heading and the lines of the first hundred, then the heading and the
    lines of the others. *)
Theorem report_repeats_heading (f : option stream) (self : t) (w : World)
    (first more : list (pyval * pyval)) :
  graph self = VDict (first ++ more) ->
  Forall is_row (first ++ more) ->
  length first = 100%nat ->
  more <> [] ->
  (length more <= 100)%nat ->
  stats self = VNone \/ (exists records, stats self = VList records) ->
  report f (self, w)
  = (Ok tt,
     (self, stream_write (default sys_stdout f)
              (stats_text (stats self) +:+ graph_heading
                 +:+ (table_heading +:+ row_lines first)
                 +:+ (table_heading +:+ row_lines more)) w)).
Proof.
  intros Hg Hrows Hfirst Hmore Hlen Hs.
  rewrite (report_rows f self w _ Hg Hrows Hs), rows_from_app, Hfirst.
  rewrite (rows_from_shift more 0), (rows_from_first first) by lia.
  rewrite (rows_from_first more Hlen).
  destruct first as [|item first]; [discriminate|].
  destruct more as [|item' more]; [contradiction|]. reflexivity.
Qed.

(** X14. With a graph that is neither [None] nor a dictionary, [report]
    writes the statistics block, if any, and 'Object graph', and then
    raises [AttributeError]: the graph has no [items]. *)
Theorem report_graph_without_items (f : option stream) (self : t) (w : World) :
  graph self <> VNone ->
  (forall items, graph self <> VDict items) ->
  stats self = VNone \/ (exists records, stats self = VList records) ->
  report f (self, w)
  = (Raise (AttributeError ("'" +:+ type_name (graph self)
                            +:+ "' object has no attribute 'items'")),
     (self, stream_write (default sys_stdout f)
              (stats_text (stats self) +:+ graph_heading) w)).
Proof.
  intros Hheld Hnodict Hs. rewrite (report_with_graph _ _ _ Hheld).
  assert (Hgraph : forall w0,
             report_graph (default sys_stdout f) (self, w0)
             = (Raise (AttributeError ("'" +:+ type_name (graph self)
                                       +:+ "' object has no attribute 'items'")),
                (self, stream_write (default sys_stdout f) graph_heading w0))).
  { intros w0. rewrite report_graph_eq.
    destruct (graph self) as [|z|t0|xs|xs|items]; try reflexivity.
    now contradiction (Hnodict items). }
  destruct Hs as [Hs|[records Hs]].
  - rewrite (bind_ok _ _ _ _ _ (report_stats_absent _ self w Hs)), Hgraph.
    now rewrite Hs.
  - rewrite (bind_ok _ _ _ _ _ (report_stats_present _ self w records Hs)), Hgraph.
    now rewrite stream_write_write, Hs.
Qed.

(** ** report writes and does nothing else *)

Lemma only_wrote_refl (f : stream) (w : World) : only_wrote f w w.
Proof.
  do 4 (split; [reflexivity|]). split; [intros g _; reflexivity|].
  exists "". now rewrite string_app_nil_r.
Qed.

Lemma written_other_stream (f g : stream) (text : string) (w : World) :
  g <> f -> written g (stream_write f text w) = written g w.
Proof.
  intros Hne. destruct f as [|n], g as [|m]; try reflexivity; [contradiction|].
  unfold written, stream_write, set_streams. simpl.
  rewrite lookup_insert_ne; [reflexivity|congruence].
Qed.

Lemma only_wrote_write (f : stream) (text : string) (w w' : World) :
  only_wrote f w w' -> only_wrote f w (stream_write f text w').
Proof.
  intros (Hfiles & Hlog & Hcoll & Hrt & Hothers & [written0 Hf]).
  split; [now destruct f|]. split; [now destruct f|]. split; [now destruct f|].
  split; [now destruct f|]. split.
  - intros g Hg. rewrite (written_other_stream f g text w' Hg). now apply Hothers.
  - exists (written0 +:+ text).
    now rewrite written_stream_write, Hf, string_app_assoc.
Qed.

Lemma report_row_only_writes (f : stream) (w : World) (self : t)
    (row : nat * (pyval * pyval)) (s : st) :
  fst s = self /\ only_wrote f w (snd s) ->
  fst (snd (report_row f row s)) = self
  /\ only_wrote f w (snd (snd (report_row f row s))).
Proof.
  destruct row as [i [id node]], s as [self0 w0]. cbn [fst snd]. intros [-> Hw].
  unfold report_row, bind, in_world, modify, ret, lift_outcome. cbn [fst snd].
  destruct (i mod 100 =? 0)%nat; cbn [fst snd];
    destruct (unpack 3 node) as [fields|e]; cbn [fst snd];
    try destruct (format_i id) as [id_text|e']; cbn [fst snd];
    (split; [reflexivity|]); repeat apply only_wrote_write; exact Hw.
Qed.

Lemma report_graph_only_writes (f : stream) (w w0 : World) (self : t) :
  only_wrote f w w0 ->
  fst (snd (report_graph f (self, w0))) = self
  /\ only_wrote f w (snd (snd (report_graph f (self, w0)))).
Proof.
  intros Hw. rewrite report_graph_eq.
  destruct (py_items (graph self)) as [items|e].
  - apply (for_each_invariant (fun s => fst s = self /\ only_wrote f w (snd s))).
    + intros row s Hs. now apply report_row_only_writes.
    + split; [reflexivity|]. now apply only_wrote_write.
  - split; [reflexivity|]. now apply only_wrote_write.
Qed.

Lemma report_stats_eq (f : stream) (self : t) (w : World) :
  report_stats f (self, w)
  = if is_None (stats self) then (Ok tt, (self, w))
    else
      match py_iter (stats self) with
      | Raise e => (Raise e, (self, stream_write f "Collection statitstics
" w))
      | Ok records =>
          match for_each (enumerate records)
                  (fun '(i, r) =>
                     in_world (modify (stream_write f
                       (pretty i +:+ ": " +:+ py_str r +:+ "
"))))
                  (self, stream_write f "Collection statitstics
" w)
          with
          | (Ok _, s') => (Ok tt, (fst s', stream_write f "
" (snd s')))
          | (Raise e, s') => (Raise e, s')
          end
      end.
Proof.
  unfold report_stats, bind, self_, gets, in_world, modify, lift_outcome, ret.
  cbn [fst snd].
  destruct (is_None (stats self)); [reflexivity|]. cbn [negb].
  destruct (py_iter (stats self)) as [records|e]; [|reflexivity].
  now destruct (for_each (enumerate records) _ _) as [[[]|e] s'].
Qed.

Lemma report_stats_only_writes (f : stream) (w : World) (self : t) :
  fst (snd (report_stats f (self, w))) = self
  /\ only_wrote f w (snd (snd (report_stats f (self, w)))).
Proof.
  rewrite report_stats_eq.
  destruct (is_None (stats self)); [split; [reflexivity|apply only_wrote_refl]|].
  destruct (py_iter (stats self)) as [records|e];
    [|split; [reflexivity|apply only_wrote_write, only_wrote_refl]].
  assert (Hloop : let s' := snd (for_each (enumerate records)
                    (fun '(i, r) =>
                       in_world (modify (stream_write f
                         (pretty i +:+ ": " +:+ py_str r +:+ "
"))))
                    (self, stream_write f "Collection statitstics
" w)) in
                  fst s' = self /\ only_wrote f w (snd s')).
  { apply (for_each_invariant (fun s => fst s = self /\ only_wrote f w (snd s))).
    - intros [i r] [self0 w0] [Hself Hw]. cbn [fst snd] in *.
      unfold in_world, modify. cbn [fst snd].
      split; [exact Hself|now apply only_wrote_write].
    - split; [reflexivity|apply only_wrote_write, only_wrote_refl]. }
  cbv zeta in Hloop.
  destruct (for_each (enumerate records) _ _) as [[[]|e] [self1 w1]];
    cbn [fst snd] in *; destruct Hloop as [-> Hw].
  - split; [reflexivity|now apply only_wrote_write].
  - now split.
Qed.

(** X15. [report] never changes the object, and of the world nothing but
    the stream it was given, [sys.stdout] when it was given none, to
    which it only appends: the files, the log, the collector and every
    other stream are as they were, whether it returns or raises. *)
Theorem report_only_writes (f : option stream) (self : t) (w : World) :
  fst (snd (report f (self, w))) = self
  /\ only_wrote (default sys_stdout f) w (snd (snd (report f (self, w)))).
Proof.
  destruct (graph self) as [|z|t0|xs|xs|items] eqn:Hg.
  { assert (Hrun : report f (self, w)
                   = (Raise (AssertionError "no memory graph"), (self, w)))
      by (unfold report, bind, self_, gets; simpl; now rewrite Hg).
    rewrite Hrun. split; [reflexivity|apply only_wrote_refl]. }
  all: rewrite report_with_graph by (rewrite Hg; discriminate).
  all: unfold bind;
    pose proof (report_stats_only_writes (default sys_stdout f) w self) as [Hself Hw];
    destruct (report_stats (default sys_stdout f) (self, w)) as [[[]|e] [self1 w1]];
    cbn [fst snd] in *; subst self1;
    [now apply report_graph_only_writes|now split].
Qed.

(** ** load and what follows *)

Lemma load_eq (self : t) (w : World) :
  load (self, w)
  = let w0 := add_log (LogMessage DEBUG ("Loading memory graph from: " +:+ path self)) w in
    match files w !! path self with
    | None => (Raise (FileNotFoundError (path self)), (self, w0))
    | Some content =>
        match pickle_loads content with
        | None => (Raise UnpicklingError, (self, w0))
        | Some v =>
            match unpack 2 v with
            | Raise e => (Raise e, (self, w0))
            | Ok vals =>
                (Ok tt, ({| path := path self; stats := nth 0 vals VNone;
                            graph := nth 1 vals VNone |}, w0))
            end
        end
    end.
Proof.
  unfold load. run.
  destruct (files w !! path self) as [content|]; [|reflexivity]. simpl.
  destruct (pickle_loads content) as [v|]; [|reflexivity]. simpl.
  now destruct (unpack 2 v).
Qed.

(** X16. After a [load] that returned, [write] on the same object raises
    the assertion error: the file it was loaded from is in the way, so a
    loaded snapshot is never written back in place. *)
Theorem load_then_write_refused (self self' : t) (w w' : World) :
  load (self, w) = (Ok tt, (self', w')) ->
  write (self', w')
  = (Raise (AssertionError ("cannot overwrite " +:+ path self)), (self', w')).
Proof.
  rewrite load_eq. cbv zeta.
  destruct (files w !! path self) as [content|] eqn:Hfile; [|discriminate].
  destruct (pickle_loads content) as [v|]; [|discriminate].
  destruct (unpack 2 v) as [vals|e]; [|discriminate].
  intros [= <- <-].
  rewrite write_existing; [reflexivity|]. simpl. rewrite Hfile. eauto.
Qed.

(** X17. [load] takes whatever unpickles and unpacks into two: the pickle
    of a list of two values is loaded as well as that of a pair; the
    pickle of a tuple or list that is not of length two raises
    [ValueError], that of [None] or of an integer [TypeError], and the
    object is then as it was. The codec is taken to give back what it was
    given. *)
Theorem load_wants_two_values (self : t) (w : World) (v : pyval) :
  pickle_exact ->
  files w !! path self = Some (pickle_dumps v) ->
  (forall s g, v = VList [s; g] \/ v = VTuple [s; g] ->
     fst (load (self, w)) = Ok tt
     /\ fst (snd (load (self, w))) = {| path := path self; stats := s; graph := g |})
  /\ (forall xs, v = VList xs \/ v = VTuple xs -> length xs <> 2%nat ->
      exists msg, fst (load (self, w)) = Raise (ValueError msg)
                  /\ fst (snd (load (self, w))) = self)
  /\ (v = VNone \/ (exists z, v = VInt z) ->
      exists msg, fst (load (self, w)) = Raise (TypeError msg)
                  /\ fst (snd (load (self, w))) = self).
Proof.
  intros Hexact Hfile. rewrite load_eq, Hfile, Hexact. cbv zeta.
  split; [|split].
  - intros s g [->| ->]; now split.
  - intros xs Hv Hlen.
    assert (Hunpack : exists msg, unpack 2 v = Raise (ValueError msg)).
    { unfold unpack. destruct Hv as [->| ->]; cbn [py_iter];
        (destruct (decide (length xs = 2%nat)); [contradiction|]);
        destruct (decide (length xs < 2)%nat); eauto. }
    destruct Hunpack as [msg ->]. exists msg. now split.
  - intros [->|[z ->]]; eexists; split; reflexivity.
Qed.

(** ** install and uninstall *)

(** The signal [install] and [uninstall] act on. *)
Lemma install_eq (sig : option Z) (path : option string)
    (name_template : option (list piece)) (p : Process) :
  install sig path name_template p
  = let n := default (SIGUSR1 p) sig in
    let p0 := set_world
                (add_log (LogMessage INFO
                            ("Installing signal handler for signal: " +:+ pretty n))
                   (world p)) p in
    match refused p !! n with
    | Some e => (Raise e, p0)
    | None =>
        (Ok tt,
         set_dispositions
           (<[n := Handler {| PromDump.path := default (tempdir p) path;
                              PromDump.name_template :=
                                default FILE_NAME_TEMPLATE name_template |}]>
              (dispositions p)) p0)
    end.
Proof.
  unfold install, PromDump_install, PromDump_new, signal_signal, in_process, bind,
    gets, LOGGER, modify, ret.
  destruct sig as [n|]; cbn; now destruct (refused p !! _).
Qed.

Lemma uninstall_eq (sig : option Z) (p : Process) :
  uninstall sig p
  = match refused p !! default (SIGUSR1 p) sig with
    | Some e => (Raise e, p)
    | None => (Ok tt, set_dispositions
                        (<[default (SIGUSR1 p) sig := SIG_DFL]> (dispositions p)) p)
    end.
Proof.
  unfold uninstall, signal_signal, bind, gets, ret.
  destruct sig as [n|]; cbn; now destruct (refused p !! _).
Qed.

Lemma install_binds_handler_aux (sig : option Z) (path : option string)
    (name_template : option (list piece)) (p p1 : Process) :
  install sig path name_template p = (Ok tt, p1) ->
  getsignal (default (SIGUSR1 p) sig) p1
  = Handler {| PromDump.path := default (tempdir p) path;
               PromDump.name_template := default FILE_NAME_TEMPLATE name_template |}
  /\ world p1
     = add_log (LogMessage INFO
                  ("Installing signal handler for signal: "
                   +:+ pretty (default (SIGUSR1 p) sig)))
         (world p).
Proof.
  rewrite install_eq. cbv zeta.
  destruct (refused p !! default (SIGUSR1 p) sig); [discriminate|].
  intros [= <-]. unfold getsignal. cbn [dispositions set_dispositions].
  split; [now rewrite lookup_insert_eq|reflexivity].
Qed.

(** X18. [install] on a signal that can be caught binds it to the handler
    of a trigger made of the directory and template given, the temporary
    directory and the default template where none is given; [SIGUSR1] is
    the signal when none is given. Every other signal keeps its
    disposition, and of the world only the log grows, by one message. *)
Theorem install_binds_handler (sig : option Z) (path : option string)
    (name_template : option (list piece)) (p : Process) :
  refused p !! default (SIGUSR1 p) sig = None ->
  exists p',
    install sig path name_template p = (Ok tt, p')
    /\ getsignal (default (SIGUSR1 p) sig) p'
       = Handler {| PromDump.path := default (tempdir p) path;
                    PromDump.name_template := default FILE_NAME_TEMPLATE name_template |}
    /\ (forall other, other <> default (SIGUSR1 p) sig ->
          getsignal other p' = getsignal other p)
    /\ world p'
       = add_log (LogMessage INFO
                    ("Installing signal handler for signal: "
                     +:+ pretty (default (SIGUSR1 p) sig)))
           (world p).
Proof.
  intros Hfree. rewrite install_eq. cbv zeta. rewrite Hfree.
  eexists. split; [reflexivity|]. unfold getsignal. cbn [dispositions set_dispositions].
  split; [now rewrite lookup_insert_eq|]. split; [|reflexivity].
  intros other Hne. now rewrite lookup_insert_ne.
Qed.

(** X19. [install] on a signal that [signal.signal] refuses raises what
    [signal.signal] raised, after the message was logged; no disposition
    has changed. *)
Theorem install_refused_signal (sig : option Z) (path : option string)
    (name_template : option (list piece)) (p : Process) (e : exn) :
  refused p !! default (SIGUSR1 p) sig = Some e ->
  fst (install sig path name_template p) = Raise e
  /\ dispositions (snd (install sig path name_template p)) = dispositions p
  /\ log (world (snd (install sig path name_template p)))
     = (log (world p)
        ++ [LogMessage INFO ("Installing signal handler for signal: "
                             +:+ pretty (default (SIGUSR1 p) sig))])%list.
Proof.
  intros Hrefused. rewrite install_eq. cbv zeta. rewrite Hrefused. now split.
Qed.

(** X20. [uninstall] after [install] leaves the signal with the default
    action, whatever it was bound to before [install]: the earlier
    disposition is not brought back. The module then no longer decides
    what the arrival of the signal does. *)
Theorem uninstall_after_install (sig : option Z) (path : option string)
    (name_template : option (list piece)) (p p1 : Process) :
  install sig path name_template p = (Ok tt, p1) ->
  exists p2,
    uninstall sig p1 = (Ok tt, p2)
    /\ getsignal (default (SIGUSR1 p) sig) p2 = SIG_DFL
    /\ deliver (default (SIGUSR1 p) sig) p2 = None
    /\ (forall other, other <> default (SIGUSR1 p) sig ->
          getsignal other p2 = getsignal other p)
    /\ world p2 = world p1.
Proof.
  rewrite install_eq. cbv zeta.
  destruct (refused p !! default (SIGUSR1 p) sig) eqn:Hfree; [discriminate|].
  intros [= <-]. rewrite uninstall_eq. cbn [refused SIGUSR1 set_dispositions set_world].
  rewrite Hfree. eexists. split; [reflexivity|].
  assert (Hdfl : getsignal (default (SIGUSR1 p) sig)
                   (set_dispositions
                      (<[default (SIGUSR1 p) sig := SIG_DFL]>
                         (dispositions
                            (set_dispositions
                               (<[default (SIGUSR1 p) sig :=
                                    Handler
                                      {| PromDump.path := default (tempdir p) path;
                                         PromDump.name_template :=
                                           default FILE_NAME_TEMPLATE name_template |}]>
                                  (dispositions p))
                               (set_world
                                  (add_log
                                     (LogMessage INFO
                                        ("Installing signal handler for signal: "
                                         +:+ pretty (default (SIGUSR1 p) sig)))
                                     (world p)) p))))
                      (set_dispositions
                         (<[default (SIGUSR1 p) sig :=
                              Handler
                                {| PromDump.path := default (tempdir p) path;
                                   PromDump.name_template :=
                                     default FILE_NAME_TEMPLATE name_template |}]>
                            (dispositions p))
                         (set_world
                            (add_log
                               (LogMessage INFO
                                  ("Installing signal handler for signal: "
                                   +:+ pretty (default (SIGUSR1 p) sig)))
                               (world p)) p)))
                 = SIG_DFL).
  { unfold getsignal. cbn [dispositions set_dispositions]. now rewrite lookup_insert_eq. }
  split; [exact Hdfl|]. split; [unfold deliver; now rewrite Hdfl|].
  split; [|reflexivity].
  intros other Hne. unfold getsignal. cbn [dispositions set_dispositions].
  now rewrite !lookup_insert_ne.
Qed.

(** X21. A second [install], for another signal, leaves the first signal
    bound to its handler: both signals then trigger a dump, each through
    a trigger of its own. *)
Theorem install_twice_keeps_first (s1 s2 : Z) (path1 path2 : option string)
    (template1 template2 : option (list piece)) (p p1 p2 : Process) :
  s1 <> s2 ->
  install (Some s1) path1 template1 p = (Ok tt, p1) ->
  install (Some s2) path2 template2 p1 = (Ok tt, p2) ->
  getsignal s1 p2
  = Handler {| PromDump.path := default (tempdir p) path1;
               PromDump.name_template := default FILE_NAME_TEMPLATE template1 |}
  /\ getsignal s2 p2
     = Handler {| PromDump.path := default (tempdir p) path2;
                  PromDump.name_template := default FILE_NAME_TEMPLATE template2 |}.
Proof.
  intros Hne H1 H2. rewrite install_eq in H1. cbv zeta in H1.
  change (default (SIGUSR1 p) (Some s1)) with s1 in H1.
  destruct (refused p !! s1) eqn:Hfree1; [discriminate|]. injection H1 as <-.
  rewrite install_eq in H2. cbv zeta in H2.
  cbn [refused set_dispositions set_world SIGUSR1 dispositions tempdir world] in H2.
  change (default (SIGUSR1 p) (Some s2)) with s2 in H2.
  destruct (refused p !! s2) eqn:Hfree2; [discriminate|]. injection H2 as <-.
  unfold getsignal. cbn [dispositions set_dispositions set_world].
  rewrite lookup_insert_ne by congruence. now rewrite !lookup_insert_eq.
Qed.

(** X22. After [install], the arrival of the signal runs the handler of
    the trigger: when the file the template names is not there and can be
    opened and the tracked objects render and have identities of their
    own, it ends normally, the files are those before and the dump, and
    the signal is still bound to the handler. *)
Theorem signal_after_install_dumps (sig : option Z) (path : option string)
    (name_template : option (list piece)) (p p1 : Process) (name : string) :
  install sig path name_template p = (Ok tt, p1) ->
  format_template (default FILE_NAME_TEMPLATE name_template) (info_of (world p)) = Ok name ->
  files (world p) !! pathjoin (default (tempdir p) path) name = None ->
  unopenable (world p) !! pathjoin (default (tempdir p) path) name = None ->
  Forall renders (gc_objects (runtime (world p))) ->
  NoDup (map o_id (gc_objects (runtime (world p)))) ->
  exists p2,
    deliver (default (SIGUSR1 p) sig) p1 = Some (Ok tt, p2)
    /\ files (world p2)
       = <[pathjoin (default (tempdir p) path) name :=
             pickle_dumps
               (VTuple [gathered_stats (world p) VNone;
                        VDict (map entry (gc_objects (runtime (world p))))])]>
           (files (world p))
    /\ dispositions p2 = dispositions p1.
Proof.
  intros Hinstall Hname Hfree Hopen Hr Hnd.
  destruct (install_binds_handler_aux sig path name_template p p1 Hinstall)
    as (Hbound & Hworld).
  unfold deliver. rewrite Hbound. unfold in_process.
  set (trigger := {| PromDump.path := default (tempdir p) path;
                     PromDump.name_template := default FILE_NAME_TEMPLATE name_template |}).
  rewrite Hworld.
  set (w1 := add_log _ (world p)).
  rewrite (handler_gathered trigger (default (SIGUSR1 p) sig) w1 name Hname Hfree Hr Hnd).
  cbv zeta. change (unopenable w1) with (unopenable (world p)).
  change (PromDump.path trigger) with (default (tempdir p) path).
  rewrite Hopen. eexists. split; [reflexivity|]. now split.
Qed.

End more_properties.


(** ** More properties on the sample process *)

Lemma existing_files_are_kept_witness :
  exists content,
    files Sample.dumped !! Sample.dump_path = Some content
    /\ files (snd (PromDump._handler Sample.trigger 10 Sample.dumped)) !! Sample.dump_path
       = Some content.
Proof.
  eexists. split; [vm_compute; reflexivity|].
  eapply (proj2 (proj2 (existing_files_are_kept Sample.dumped Sample.dump_path _ _))).
  Unshelve. vm_compute. reflexivity.
Defined.

Lemma dump_returns_written_object_witness :
  exists d w',
    PromDump.dump Sample.trigger Sample.world = (Ok d, w')
    /\ PromDumpFile.graph d <> VNone
    /\ pathexists (PromDumpFile.path d) w' = true.
Proof.
  eexists. eexists. split; [vm_compute; reflexivity|].
  refine (let Hall := dump_returns_written_object Sample.trigger Sample.world _ _ _ in
          conj (proj1 Hall) (proj1 (proj2 (proj2 Hall)))).
  vm_compute. reflexivity.
Defined.

Lemma dump_twice_same_clock_witness :
  exists d w',
    PromDump.dump Sample.trigger Sample.world = (Ok d, w')
    /\ PromDump.dump Sample.trigger w'
       = (Raise (AssertionError ("cannot overwrite " +:+ PromDumpFile.path d)), w').
Proof.
  eexists. eexists. split; [vm_compute; reflexivity|].
  apply (dump_twice_same_clock Sample.trigger Sample.world).
  vm_compute. reflexivity.
Defined.

Lemma dump_default_path_witness :
  exists d w',
    PromDump.dump Sample.trigger Sample.world = (Ok d, w')
    /\ PromDumpFile.path d = pathjoin "/tmp" (default_name Sample.world).
Proof.
  eexists. eexists. split; [vm_compute; reflexivity|].
  refine (proj1 (dump_default_path Sample.trigger Sample.world _ _ eq_refl _)).
  vm_compute. reflexivity.
Defined.

Lemma dump_unknown_field_witness :
  exists e, PromDump.dump More.odd_trigger Sample.world = (Raise e, Sample.world).
Proof.
  apply (dump_unknown_field More.odd_trigger Sample.world "host" "s").
  - right. left. reflexivity.
  - discriminate.
  - discriminate.
  - discriminate.
Defined.

Lemma gather_keys_witness :
  exists items,
    PromDumpFile.graph
      (fst (snd (PromDumpFile.gather (PromDumpFile.__init__ "dump.prom", More.failing))))
    = VDict items
    /\ NoDup (map fst items).
Proof.
  destruct (gather_keys (PromDumpFile.__init__ "dump.prom") More.failing)
    as (items & Hg & Hnd & _).
  exists items. now split.
Defined.

Lemma gather_replaces_snapshot_witness :
  PromDumpFile.gather (holding "snap.prom" Sample.snapshot, Sample.world)
  = (Ok tt,
     ({| PromDumpFile.path := "snap.prom";
         PromDumpFile.stats := VList [VDict [(VStr "collections", VInt 3)]];
         PromDumpFile.graph := VDict (map entry Sample.heap) |},
      collected Sample.world)).
Proof.
  apply (gather_replaces_snapshot (holding "snap.prom" Sample.snapshot) Sample.world).
  - reflexivity.
  - repeat constructor; eexists; reflexivity.
  - refine (bool_decide_unpack _ _). vm_compute. exact I.
Defined.

Lemma gather_stops_at_first_failure_witness :
  PromDumpFile.gather (PromDumpFile.__init__ "dump.prom", More.failing)
  = (Raise (RuntimeError "no text"),
     ({| PromDumpFile.path := "dump.prom"; PromDumpFile.stats := VList [];
         PromDumpFile.graph := VDict [entry More.first] |},
      collected More.failing)).
Proof.
  apply (gather_stops_at_first_failure (PromDumpFile.__init__ "dump.prom") More.failing
           [More.first] [More.last] More.bad).
  - reflexivity.
  - repeat constructor; eexists; reflexivity.
  - refine (bool_decide_unpack _ _). vm_compute. exact I.
  - reflexivity.
Defined.

Lemma write_after_failed_gather_witness :
  exists self1 w1,
    PromDumpFile.gather (PromDumpFile.__init__ "dump.prom", More.failing)
    = (Raise (RuntimeError "no text"), (self1, w1))
    /\ fst (PromDumpFile.write (self1, w1)) = Ok tt
    /\ collections (snd (snd (PromDumpFile.write (self1, w1)))) = collections w1.
Proof.
  eexists. eexists. split; [vm_compute; reflexivity|].
  refine (let Hall := write_after_failed_gather (PromDumpFile.__init__ "dump.prom") _
                        More.failing _ (RuntimeError "no text") _ eq_refl eq_refl in _).
  destruct (proj2 Hall) as [Hwrite Hcount].
  rewrite Hwrite. split; [reflexivity|exact Hcount].
  Unshelve. vm_compute. reflexivity.
Defined.

Lemma handler_raises_no_Exception_witness :
  exists e w',
    PromDump._handler Sample.trigger 10 (Sample.world_of Sample.rt_interrupted)
    = (Raise e, w')
    /\ is_Exception e = false.
Proof.
  eexists. eexists. split; [vm_compute; reflexivity|].
  eapply (handler_raises_no_Exception Sample.trigger 10
            (Sample.world_of Sample.rt_interrupted)).
  vm_compute. reflexivity.
Defined.

Lemma handler_writes_one_file_witness :
  fst (PromDump._handler Sample.trigger 10 Sample.world) = Ok tt
  /\ files (snd (PromDump._handler Sample.trigger 10 Sample.world))
     = <[Sample.dump_path :=
           pickle_dumps (VTuple [VList [VDict [(VStr "collections", VInt 3)]];
                                 VDict (map entry Sample.heap)])]> ∅.
Proof.
  apply (handler_writes_one_file Sample.trigger 10 Sample.world
           (default_name Sample.world)).
  - reflexivity.
  - reflexivity.
  - reflexivity.
  - repeat constructor; eexists; reflexivity.
  - refine (bool_decide_unpack _ _). vm_compute. exact I.
Defined.

Lemma rows_are_rows (start count : nat) : Forall is_row (More.rows start count).
Proof.
  unfold More.rows. revert start. induction count as [|count IH]; intros start.
  - apply List.Forall_nil.
  - simpl. apply List.Forall_cons; [|apply IH]. do 4 eexists. reflexivity.
Qed.

Lemma report_three_field_nodes_witness :
  PromDumpFile.report None (More.with_rows (More.rows 7 2), Sample.world)
  = (Ok tt,
     (More.with_rows (More.rows 7 2),
      stream_write sys_stdout
        (graph_heading +:+ table_heading +:+ row_lines (More.rows 7 2)) Sample.world)).
Proof.
  apply (report_three_field_nodes None (More.with_rows (More.rows 7 2)) Sample.world
           (More.rows 7 2)).
  - reflexivity.
  - apply rows_are_rows.
  - simpl. lia.
  - left. reflexivity.
Defined.

Lemma report_repeats_heading_witness :
  PromDumpFile.report None
    (More.with_rows (More.rows 0 100 ++ More.rows 100 1), Sample.world)
  = (Ok tt,
     (More.with_rows (More.rows 0 100 ++ More.rows 100 1),
      stream_write sys_stdout
        (graph_heading +:+ (table_heading +:+ row_lines (More.rows 0 100))
           +:+ (table_heading +:+ row_lines (More.rows 100 1))) Sample.world)).
Proof.
  apply (report_repeats_heading None
           (More.with_rows (More.rows 0 100 ++ More.rows 100 1)) Sample.world
           (More.rows 0 100) (More.rows 100 1)).
  - reflexivity.
  - apply Forall_app. split; apply rows_are_rows.
  - vm_compute. reflexivity.
  - discriminate.
  - vm_compute. lia.
  - left. reflexivity.
Defined.

Lemma report_graph_without_items_witness :
  PromDumpFile.report None
    ({| PromDumpFile.path := "odd.prom"; PromDumpFile.stats := VNone;
        PromDumpFile.graph := VList [] |}, Sample.world)
  = (Raise (AttributeError "'list' object has no attribute 'items'"),
     ({| PromDumpFile.path := "odd.prom"; PromDumpFile.stats := VNone;
         PromDumpFile.graph := VList [] |},
      stream_write sys_stdout graph_heading Sample.world)).
Proof.
  apply (report_graph_without_items None
           {| PromDumpFile.path := "odd.prom"; PromDumpFile.stats := VNone;
              PromDumpFile.graph := VList [] |} Sample.world).
  - discriminate.
  - discriminate.
  - left. reflexivity.
Defined.

Lemma load_then_write_refused_witness :
  exists self' w',
    PromDumpFile.load (PromDumpFile.__init__ Sample.dump_path, Sample.dumped)
    = (Ok tt, (self', w'))
    /\ PromDumpFile.write (self', w')
       = (Raise (AssertionError ("cannot overwrite " +:+ Sample.dump_path)), (self', w')).
Proof.
  eexists. eexists. split; [vm_compute; reflexivity|].
  apply (load_then_write_refused (PromDumpFile.__init__ Sample.dump_path) _ Sample.dumped).
  vm_compute. reflexivity.
Defined.

Lemma load_wants_two_values_witness :
  files (More.world_with "three.prom" (VTuple [VNone; VDict []; VInt 0])) !! "three.prom"
  = Some (pickle_dumps (VTuple [VNone; VDict []; VInt 0]))
  /\ exists msg,
       fst (PromDumpFile.load
              (PromDumpFile.__init__ "three.prom",
               More.world_with "three.prom" (VTuple [VNone; VDict []; VInt 0])))
       = Raise (ValueError msg).
Proof.
  split; [reflexivity|].
  destruct (proj1 (proj2 (load_wants_two_values
                            (PromDumpFile.__init__ "three.prom")
                            (More.world_with "three.prom" (VTuple [VNone; VDict []; VInt 0]))
                            (VTuple [VNone; VDict []; VInt 0])
                            ReferenceFacts.loads_ops eq_refl))
              [VNone; VDict []; VInt 0] (or_intror eq_refl) ltac:(discriminate))
    as (msg & Hmsg & _).
  now exists msg.
Defined.

Lemma install_binds_handler_witness :
  exists p',
    install None None None sample_process = (Ok tt, p')
    /\ getsignal 10 p'
       = Handler {| PromDump.path := "/tmp"; PromDump.name_template := FILE_NAME_TEMPLATE |}
    /\ getsignal 12 p' = Callable 0.
Proof.
  destruct (install_binds_handler None None None sample_process eq_refl)
    as (p' & Hrun & Hbound & Hothers & _).
  exists p'. split; [exact Hrun|]. split; [exact Hbound|].
  rewrite (Hothers 12); [reflexivity|discriminate].
Defined.

Lemma install_refused_signal_witness :
  fst (install (Some 99) None None sample_process)
  = Raise (ValueError "signal number out of range")
  /\ dispositions (snd (install (Some 99) None None sample_process))
     = dispositions sample_process.
Proof.
  destruct (install_refused_signal (Some 99) None None sample_process
              (ValueError "signal number out of range") eq_refl)
    as (Hraise & Hkept & _).
  now split.
Defined.

Lemma uninstall_after_install_witness :
  exists p1 p2,
    install (Some 12) None None sample_process = (Ok tt, p1)
    /\ getsignal 12 sample_process = Callable 0
    /\ uninstall (Some 12) p1 = (Ok tt, p2)
    /\ getsignal 12 p2 = SIG_DFL.
Proof.
  eexists. 
  destruct (uninstall_after_install (Some 12) None None sample_process _ eq_refl)
    as (p2 & Hrun & Hdfl & _).
  exists p2. split; [reflexivity|]. split; [reflexivity|]. now split.
Defined.

Lemma install_twice_keeps_first_witness :
  exists p1 p2,
    install (Some 10) None None sample_process = (Ok tt, p1)
    /\ install (Some 12) (Some "/var/dumps") None p1 = (Ok tt, p2)
    /\ getsignal 10 p2
       = Handler {| PromDump.path := "/tmp"; PromDump.name_template := FILE_NAME_TEMPLATE |}
    /\ getsignal 12 p2
       = Handler {| PromDump.path := "/var/dumps";
                    PromDump.name_template := FILE_NAME_TEMPLATE |}.
Proof.
  eexists. eexists. split; [reflexivity|]. split; [reflexivity|].
  apply (install_twice_keeps_first 10 12 None (Some "/var/dumps") None None
           sample_process _ _ ltac:(discriminate) eq_refl eq_refl).
Defined.

Lemma signal_after_install_dumps_witness :
  exists p1 p2,
    install None None None sample_process = (Ok tt, p1)
    /\ deliver 10 p1 = Some (Ok tt, p2)
    /\ pathexists Sample.dump_path (world p2) = true.
Proof.
  eexists.
  destruct (signal_after_install_dumps None None None sample_process _
              (default_name Sample.world) eq_refl eq_refl eq_refl eq_refl)
    as (p2 & Hrun & Hfiles & _).
  - repeat constructor; eexists; reflexivity.
  - refine (bool_decide_unpack _ _). vm_compute. exact I.
  - exists p2. split; [reflexivity|]. split; [exact Hrun|].
    unfold pathexists. rewrite Hfiles. apply bool_decide_eq_true_2.
    change (pathjoin (default (tempdir sample_process) None) (default_name Sample.world))
      with Sample.dump_path.
    rewrite lookup_insert_eq. eauto.
Defined.

(** ** The command line, whatever the arguments *)

Section command_line_properties.
Context `{Builtins}.

(** X23. When the arguments parse to a path that holds no file, [main]
    leaves through [DocoptExit] with the text of the schema error: the
    status is not zero and the world is as it was, no file read, created
    or changed and nothing written. *)
Theorem main_refuses_missing_path (argv : list string) (p : string) (w : World) :
  docopt main_doc argv = Ok [("<path>", VStr p)] ->
  files w !! p = None ->
  main argv w
  = (Raise (DocoptExit ("pathexists('" +:+ p +:+ "') should evaluate to True")), w)
  /\ exit_status (fst (main argv w)) = 1.
Proof.
  intros Hparse Hfile.
  assert (Hmain : main argv w
                  = (Raise (DocoptExit ("pathexists('" +:+ p
                                        +:+ "') should evaluate to True")), w)).
  { unfold main. unfold bind at 1, call_docopt. rewrite Hparse.
    unfold bind at 1, try_except. rewrite schema_validate_path.
    unfold pathexists.
    rewrite bool_decide_eq_false_2 by (rewrite Hfile; apply is_Some_None).
    reflexivity. }
  split; [exact Hmain|]. now rewrite Hmain.
Qed.

(** X24. Whatever the arguments and whatever the files hold, [main] ends
    in an exception and writes no report: the files, the log, the
    collector and every stream but standard output are as they were, and
    standard output has received nothing, unless [docopt] left through
    [SystemExit] (the help option), and then the usage text and nothing
    else. *)
Theorem main_never_reports (argv : list string) (w : World) :
  (exists e, fst (main argv w) = Raise e)
  /\ only_wrote sys_stdout w (snd (main argv w))
  /\ ((forall m, docopt main_doc argv <> Raise (SystemExit m)) ->
      snd (main argv w) = w)
  /\ (forall m, docopt main_doc argv = Raise (SystemExit m) ->
      main argv w = (Raise (SystemExit m), stream_write sys_stdout main_help w)).
Proof.
  destruct (main_never_returns argv w) as [e Hmain].
  split; [rewrite Hmain; now exists e|]. split; [|split].
  - rewrite Hmain. cbn [snd].
    destruct (docopt main_doc argv) as [opt|[]];
      try apply only_wrote_refl.
    apply only_wrote_write, only_wrote_refl.
  - intros Hno. rewrite Hmain. cbn [snd].
    destruct (docopt main_doc argv) as [opt|[]]; try reflexivity.
    now contradiction (Hno msg).
  - intros m Hhelp. unfold main, bind, call_docopt. now rewrite Hhelp.
Qed.

End command_line_properties.

Lemma main_refuses_missing_path_witness :
  files Sample.world !! "missing.prom" = None
  /\ main ["missing.prom"] Sample.world
     = (Raise (DocoptExit "pathexists('missing.prom') should evaluate to True"),
        Sample.world).
Proof.
  split; [reflexivity|].
  apply (main_refuses_missing_path ["missing.prom"] "missing.prom" Sample.world);
    reflexivity.
Defined.

Lemma handler_logs_refused_open_witness :
  fst (PromDump._handler Sample.trigger 10 More.unreachable) = Ok tt
  /\ files (snd (PromDump._handler Sample.trigger 10 More.unreachable)) = ∅
  /\ List.last (log (snd (PromDump._handler Sample.trigger 10 More.unreachable)))
       (LogMessage DEBUG "")
     = LogException (FileNotFoundError "/tmp/bin/app.py-4242-1700000000.5.prom").
Proof.
  destruct (handler_logs_refused_open Sample.trigger 10 More.unreachable
              (default_name More.unreachable) ENOENT eq_refl eq_refl eq_refl)
    as (Hok & Hfiles & _ & Hlog).
  - repeat constructor; eexists; reflexivity.
  - refine (bool_decide_unpack _ _). vm_compute. exact I.
  - split; [exact Hok|]. split; [exact Hfiles|exact Hlog].
Defined.

(** ** report on the snapshots of the data model *)

Section report_of_snapshots.
Context `{Builtins}.

(** C6, as the code has it. On an object that holds a snapshot, [report]
    writes the statistics block when there are statistics and nothing
    when there are none, and then 'Object graph'. There the graph section
    stops short for every graph that has a node: the table heading is
    written and [report] raises [ValueError], the loop unpacking the
    four-field node into three names, so that no line for a node follows.
    Only the empty graph is reported to its end. *)
Theorem report_of_snapshot (f : option stream) (p : string) (s : Snapshot)
    (w : World) :
  PromDumpFile.report f (holding p s, w)
  = (match snap_graph s with
     | [] => Ok tt
     | _ => Raise (ValueError "too many values to unpack (expected 3)")
     end,
     (holding p s,
      stream_write (default sys_stdout f)
        (match snap_stats s with
         | None => ""
         | Some gens =>
             stats_block
               (map (fun counters =>
                       VDict (map (fun kv => (VStr (fst kv), VInt (snd kv))) counters))
                    gens)
         end
         +:+ graph_heading
         +:+ match snap_graph s with [] => "" | _ => table_heading end) w)).
Proof.
  set (self := holding p s).
  assert (Hs : PromDumpFile.stats self = VNone
               \/ (exists records, PromDumpFile.stats self = VList records))
    by (destruct s as [[gens|] g]; [right; eexists|left]; reflexivity).
  assert (Htext : stats_text (PromDumpFile.stats self)
                  = match snap_stats s with
                    | None => ""
                    | Some gens =>
                        stats_block
                          (map (fun counters =>
                                  VDict (map (fun kv => (VStr (fst kv), VInt (snd kv)))
                                           counters))
                               gens)
                    end)
    by (now destruct s as [[gens|] g]).
  rewrite <- Htext.
  destruct s as [st0 [|[k n] rest]].
  - exact (report_rows f self w [] eq_refl (List.Forall_nil _) Hs).
  - exact (report_first_node_four_fields f self w (VInt k) (VStr (description n))
             (VInt (approx_size n)) (VList (map VInt (referents n)))
             (VList (map VInt (referrers n)))
             (map (fun kn => (VInt (fst kn), node_value (snd kn))) rest)
             eq_refl Hs).
Qed.

End report_of_snapshots.
